(** * matrix-rss: the poll-diff-notify loop of [main.go]

    A shallow embedding of the feed poller: the data types of [main.go],
    [fetchFeed], [sendMatrixMessage] and the body of the endless [for] loop
    of [main], then the start-up of [main] with [loadConfig],
    [createDefaultConfig] and [isDefaultConfig], followed by the properties
    of one polling step, of one pass over the configured feeds, of the
    rounds of the loop and of the start-up.

    The network, the XML decoder, the Markdown renderer and the JSON encoder
    are libraries outside the repository; they are the fields of the
    [Runtime] interface below, and every theorem holds for every runtime. *)

From stdpp Require Import gmap strings list.
From Stdlib Require Import ZArith String Ascii.

Local Open Scope string_scope.
Local Open Scope Z_scope.
Local Open Scope list_scope.

(** ** Data types *)

(** The anonymous struct of the [Link] field of [Entry]. *)
Record EntryLink := { Href : string }.

Record Entry := {
  Title : string;
  Updated : string;
  Link : EntryLink
}.

Record Feed := { Entries : list Entry }.

Record Config := {
  FeedURLs : list string;
  MatrixServer : string;
  MatrixRoomID : string;
  MatrixToken : string;
  CheckInterval : Z
}.

(** A Go [error] value, by the text its [Error()] method returns. *)
Record error := errorString { Error : string }.

(** A Go result pair [(value, err)] with [err == nil] or not. *)
Inductive Result (A : Type) :=
| Ok (a : A)
| Err (err : error).
Arguments Ok {A} a.
Arguments Err {A} err.

Record Request := {
  Method : string;
  URL : string;
  Header : gmap string (list string);
  Body : string
}.

Record Response := {
  StatusCode : Z;
  Status : string
}.

Definition http_StatusOK : Z := 200.

#[global] Instance Entry_inhabited : Inhabited Entry :=
  populate {| Title := ""; Updated := ""; Link := {| Href := "" |} |}.

(** ** Formatting *)

(** [fmt.Sprintf] for the formats of this program: ordinary characters are
    copied, the verb [%s] is replaced by the next operand (all operands here
    are strings), a missing operand prints as [%!s(MISSING)], and operands
    left over are listed in a trailing [%!(EXTRA ...)]. *)
Fixpoint extraOperands (args : list string) : string :=
  match args with
  | [] => ""
  | [a] => "string=" +:+ a
  | a :: rest => "string=" +:+ a +:+ ", " +:+ extraOperands rest
  end.

Fixpoint Sprintf (format : string) (args : list string) : string :=
  match format with
  | EmptyString =>
      match args with
      | [] => ""
      | _ => "%!(EXTRA " +:+ extraOperands args +:+ ")"
      end
  | String c rest =>
      if Ascii.eqb c "%" then
        match rest with
        | String v rest' =>
            if Ascii.eqb v "s" then
              match args with
              | a :: args' => a +:+ Sprintf rest' args'
              | [] => "%!s(MISSING)" +:+ Sprintf rest' []
              end
            else String c (Sprintf rest args)
        | EmptyString => "%!(NOVERB)"
        end
      else String c (Sprintf rest args)
  end.

(** [fmt.Errorf]: the error whose text is the formatted string. *)
Definition Errorf (format : string) (args : list string) : error :=
  errorString (Sprintf format args).

(** The operands of [fmt.Println] separated by single spaces. *)
Fixpoint joinOperands (args : list string) : string :=
  match args with
  | [] => ""
  | [a] => a
  | a :: rest => a +:+ " " +:+ joinOperands rest
  end.

(** ** The tracker map *)

(** Indexing a Go [map[string]string]: a missing key yields the zero value
    of the element type, the empty string. *)
Definition mapIndex (m : gmap string string) (key : string) : string :=
  default "" (m !! key).

(** The comparison [feed.Entries[0].Updated != lastUpdates[feedURL]] of the
    polling loop, as a function of the tracker, the feed URL and the marker
    of the first entry. *)
Definition isNewUpdate (lastUpdates : gmap string string) (feedURL : string)
    (candidateMarker : string) : bool :=
  negb (String.eqb candidateMarker (mapIndex lastUpdates feedURL)).

(** The whole guard of the [if]:
    [len(feed.Entries) > 0 && feed.Entries[0].Updated != lastUpdates[feedURL]].
    The index expression is evaluated only when the length test holds. *)
Definition hasNewUpdate (feed : Feed) (lastUpdates : gmap string string)
    (feedURL : string) : bool :=
  bool_decide (0 < List.length (Entries feed))%nat
  && isNewUpdate lastUpdates feedURL (Updated (Entries feed !!! 0%nat)).

(** The text of a notification. *)
Definition composeMessage (e : Entry) : string :=
  Sprintf "IT-News: [%s](%s)" [Title e; Href (Link e)].

(** ** The world outside the program *)

(** What the process does that can be observed from outside, oldest first:
    the GET requests of [fetchFeed], the requests handed to [client.Do], the
    lines printed on standard output and the sleeps between two passes (in
    nanoseconds, as a [time.Duration]). *)
Inductive Event :=
| EvGet (url : string)
| EvDo (req : Request)
| EvPrintln (line : string)
| EvSleep (d : Z).

(** The libraries the program calls. [World] is the state of everything
    outside the process (servers, network); a network call reads and changes
    it. [url_Parse] gives the error of [url.Parse], if any, which is the one
    way [http.NewRequest] fails for the method POST. *)
Class Runtime (World : Type) := {
  http_Get : string -> World -> Result string * World;
  client_Do : Request -> World -> Result Response * World;
  xml_Decode : string -> Result Feed;
  markdown_ToHTML : string -> string;
  json_Marshal : gmap string string -> Result string;
  url_Parse : string -> option error
}.

Record Proc (World : Type) := {
  world : World;
  trace : list Event
}.
Arguments world {World} p.
Arguments trace {World} p.

(** Computations of the process: state passing over [Proc]. *)
Definition IO (World A : Type) : Type := Proc World -> A * Proc World.

Definition ret {World A} (a : A) : IO World A := fun p => (a, p).

Definition bind {World A B} (c : IO World A) (k : A -> IO World B)
  : IO World B :=
  fun p => let '(a, p') := c p in k a p'.

Notation "x <~ c ;; k" := (bind c (fun x => k))
  (at level 62, c at next level, right associativity).
Notation "c ;;; k" := (bind c (fun _ => k))
  (at level 62, right associativity).

Definition emit {World} (ev : Event) : IO World unit :=
  fun p => (tt, {| world := world p; trace := trace p ++ [ev] |}).

(** A network call: the event is logged, the world answers and moves on. *)
Definition call {World A} (ev : Event) (f : World -> A * World) : IO World A :=
  fun p => let '(a, w) := f (world p) in
           (a, {| world := w; trace := trace p ++ [ev] |}).

Definition Println {World} (args : list string) : IO World unit :=
  emit (EvPrintln (joinOperands args)).

(** [int64] wrap-around, for the multiplication of two [time.Duration]s. *)
Definition wrap64 (z : Z) : Z := (z + 2 ^ 63) mod 2 ^ 64 - 2 ^ 63.

Definition time_Minute : Z := 60 * 1000000000.

Definition time_Sleep {World} (d : Z) : IO World unit := emit (EvSleep d).

(** The [map[string]interface{}] literal of [sendMatrixMessage]; all four
    values are strings. *)
Definition matrixPayload (message htmlMessage : string) : gmap string string :=
  {[ "msgtype" := "m.text";
     "body" := message;
     "format" := "org.matrix.custom.html";
     "formatted_body" := htmlMessage ]}.

Section Program.
Context {World : Type} `{RT : Runtime World}.

(** [http.NewRequest(method, url, body)] followed by nothing else: the
    request has no header yet. *)
Definition http_NewRequest (method url body : string) : Result Request :=
  match url_Parse url with
  | Some err => Err err
  | None => Ok {| Method := method; URL := url; Header := ∅; Body := body |}
  end.

(** [req.Header.Set(key, value)]. *)
Definition Header_Set (req : Request) (key value : string) : Request :=
  {| Method := Method req; URL := URL req;
     Header := <[key := [value]]> (Header req); Body := Body req |}.

Definition sendMatrixMessage (server roomID token message : string)
  : IO World (option error) :=
  let htmlMessage := markdown_ToHTML message in
  let url :=
    Sprintf "%s/_matrix/client/r0/rooms/%s/send/m.room.message?access_token=%s"
            [server; roomID; token] in
  let payload := matrixPayload message htmlMessage in
  match json_Marshal payload with
  | Err err => ret (Some err)
  | Ok payloadBytes =>
      match http_NewRequest "POST" url payloadBytes with
      | Err err => ret (Some err)
      | Ok req =>
          let req := Header_Set req "Content-Type" "application/json" in
          r <~ call (EvDo req) (client_Do req) ;;
          match r with
          | Err err => ret (Some err)
          | Ok resp =>
              if bool_decide (StatusCode resp ≠ http_StatusOK)
              then ret (Some (Errorf "failed to send message: %s" [Status resp]))
              else ret None
          end
      end
  end.

Definition fetchFeed (url : string) : IO World (Result Feed) :=
  r <~ call (EvGet url) (http_Get url) ;;
  match r with
  | Err err => ret (Err err)
  | Ok body =>
      match xml_Decode body with
      | Err err => ret (Err err)
      | Ok feed => ret (Ok feed)
      end
  end.

(** The body of the [if] in the polling loop: the marker is stored, the
    message composed and sent, and the outcome printed. *)
Definition notifyUpdate (config : Config) (feedURL : string) (feed : Feed)
    (lastUpdates : gmap string string) : IO World (gmap string string) :=
  let lastUpdates := <[feedURL := Updated (Entries feed !!! 0%nat)]> lastUpdates in
  let message := composeMessage (Entries feed !!! 0%nat) in
  err <~ sendMatrixMessage (MatrixServer config) (MatrixRoomID config)
                           (MatrixToken config) message ;;
  match err with
  | Some err => Println ["Error sending Matrix message:"; Error err]
  | None => Println ["Update message sent for feed:"; feedURL]
  end ;;;
  ret lastUpdates.

(** One iteration of [for _, feedURL := range config.FeedURLs]. *)
Definition pollFeed (config : Config) (feedURL : string)
    (lastUpdates : gmap string string) : IO World (gmap string string) :=
  r <~ fetchFeed feedURL ;;
  match r with
  | Err err =>
      Println ["Error fetching feed:"; Error err] ;;;
      ret lastUpdates
  | Ok feed =>
      if hasNewUpdate feed lastUpdates feedURL
      then notifyUpdate config feedURL feed lastUpdates
      else ret lastUpdates
  end.

(** The inner [for] loop over a list of feed URLs. *)
Fixpoint pollFeeds (config : Config) (feedURLs : list string)
    (lastUpdates : gmap string string) : IO World (gmap string string) :=
  match feedURLs with
  | [] => ret lastUpdates
  | feedURL :: rest =>
      lastUpdates' <~ pollFeed config feedURL lastUpdates ;;
      pollFeeds config rest lastUpdates'
  end.

(** One cycle: a pass over [config.FeedURLs], then the sleep. *)
Definition cycle (config : Config) (lastUpdates : gmap string string)
  : IO World (gmap string string) :=
  lastUpdates' <~ pollFeeds config (FeedURLs config) lastUpdates ;;
  time_Sleep (wrap64 (CheckInterval config * time_Minute)) ;;;
  ret lastUpdates'.

(** The first [n] rounds of the endless outer [for]. The configuration is
    an argument: the reload on SIGHUP, which one of the two versions of the
    file has, runs concurrently and is not modelled. *)
Fixpoint mainLoop (n : nat) (config : Config)
    (lastUpdates : gmap string string) : IO World (gmap string string) :=
  match n with
  | O => ret lastUpdates
  | S n' =>
      lastUpdates' <~ cycle config lastUpdates ;;
      mainLoop n' config lastUpdates'
  end.

End Program.

(** ** A scripted runtime *)

(** A runtime for running the program on concrete inputs: every URL of
    [documents] serves the given body and any other URL refuses the
    connection; a body decodes to the feed listed in [decodes] and is
    malformed otherwise; every POST is answered with [answer]. The world
    counts the network calls served so far. *)
Module Scripted.

Record Script := {
  documents : list (string * string);
  decodes : list (string * Feed);
  answer : Response
}.

Fixpoint assoc {A} (key : string) (table : list (string * A)) : option A :=
  match table with
  | [] => None
  | (k, a) :: rest => if String.eqb key k then Some a else assoc key rest
  end.

Definition runtime (s : Script) : Runtime nat := {|
  http_Get url w :=
    (match assoc url (documents s) with
     | Some body => Ok body
     | None => Err (errorString "connection refused")
     end, S w);
  client_Do req w := (Ok (answer s), S w);
  xml_Decode body :=
    match assoc body (decodes s) with
    | Some feed => Ok feed
    | None => Err (errorString "EOF")
    end;
  markdown_ToHTML message := "<p>" +:+ message +:+ "</p>";
  json_Marshal payload :=
    Ok (mapIndex payload "msgtype" +:+ "|" +:+ mapIndex payload "body");
  url_Parse url := None
|}.

Definition start : Proc nat := {| world := O; trace := [] |}.

Definition config : Config := {|
  FeedURLs := ["https://a.example/feed1"; "https://a.example/feed2"];
  MatrixServer := "https://m.example";
  MatrixRoomID := "!r:m.example";
  MatrixToken := "tok";
  CheckInterval := 30
|}.

Definition entry (title marker href : string) : Entry :=
  {| Title := title; Updated := marker; Link := {| Href := href |} |}.

Definition ok200 : Response := {| StatusCode := 200; Status := "200 OK" |}.
Definition err500 : Response :=
  {| StatusCode := 500; Status := "500 Internal Server Error" |}.

Definition feed1URL : string := "https://a.example/feed1".
Definition feed2URL : string := "https://a.example/feed2".
Definition goneURL : string := "https://a.example/gone".

Definition bigRelease (marker : string) : Entry :=
  entry "Big Release" marker "https://x.io/a".

Definition oneEntry (marker : string) : Feed :=
  {| Entries := [bigRelease marker] |}.

Definition noEntries : Feed := {| Entries := [] |}.

(** feed1 has one entry, feed2 is an empty feed, nothing else is served. *)
Definition twoFeeds (marker : string) (resp : Response) : Script := {|
  documents := [(feed1URL, "doc1"); (feed2URL, "doc2")];
  decodes := [("doc1", oneEntry marker); ("doc2", noEntries)];
  answer := resp
|}.

Definition rt (marker : string) (resp : Response) : Runtime nat :=
  runtime (twoFeeds marker resp).

(** The process after its first GET. *)
Definition afterGet (url : string) : Proc nat :=
  {| world := 1%nat; trace := [EvGet url] |}.

(** The request that carries the message about [bigRelease]. *)
Definition bigReleasePost : Request := {|
  Method := "POST";
  URL := "https://m.example/_matrix/client/r0/rooms/!r:m.example/send/m.room.message?access_token=tok";
  Header := {[ "Content-Type" := ["application/json"] ]};
  Body := "m.text|IT-News: [Big Release](https://x.io/a)"
|}.

End Scripted.

(** The requests handed to [client.Do] in a trace. *)
Fixpoint posts (tr : list Event) : list Request :=
  match tr with
  | [] => []
  | EvDo req :: rest => req :: posts rest
  | _ :: rest => posts rest
  end.

(** ** The three statements of the specification that the program does not
    satisfy, as propositions *)

(** "When the marker is new and the delivery fails, the tracker entry of
    the feed is left as it was, so the marker is new again in the next
    cycle." *)
Definition failed_delivery_leaves_tracker : Prop :=
  forall (World : Type) (RT : Runtime World) (config : Config)
         (feedURL : string) (lastUpdates : gmap string string)
         (p p1 p2 : Proc World) (feed : Feed) (err : error),
    fetchFeed feedURL p = (Ok feed, p1) ->
    hasNewUpdate feed lastUpdates feedURL = true ->
    sendMatrixMessage (MatrixServer config) (MatrixRoomID config)
      (MatrixToken config) (composeMessage (Entries feed !!! 0%nat)) p1
    = (Some err, p2) ->
    (pollFeed config feedURL lastUpdates p).1 !! feedURL = lastUpdates !! feedURL
    /\ isNewUpdate (pollFeed config feedURL lastUpdates p).1 feedURL
         (Updated (Entries feed !!! 0%nat)) = true.

(** "The newness test is true exactly when no marker is recorded for the
    URL or the recorded marker is another string than the candidate." *)
Definition new_iff_absent_or_different : Prop :=
  forall (lastUpdates : gmap string string) (feedURL candidateMarker : string),
    isNewUpdate lastUpdates feedURL candidateMarker = true
    <-> (lastUpdates !! feedURL = None
         \/ exists recorded, lastUpdates !! feedURL = Some recorded
                             /\ recorded <> candidateMarker).

(** "With no marker recorded for the feed, a fetch that returns at least one
    entry leads to one notification made of the title and link of the first
    entry, whatever the marker of that entry." The notification is the one
    call of [sendMatrixMessage] made in the state the fetch leaves; the step
    ends in the state that call leaves, plus the line reporting its
    outcome, and a successful delivery adds exactly one request to those
    sent before the step. *)
Definition outcomeLine (feedURL : string) (err : option error) : string :=
  match err with
  | Some err => joinOperands ["Error sending Matrix message:"; Error err]
  | None => joinOperands ["Update message sent for feed:"; feedURL]
  end.

Definition first_poll_always_notifies : Prop :=
  forall (World : Type) (RT : Runtime World) (config : Config)
         (feedURL : string) (lastUpdates : gmap string string)
         (p p1 : Proc World) (feed : Feed) (e0 : Entry) (rest : list Entry),
    lastUpdates !! feedURL = None ->
    fetchFeed feedURL p = (Ok feed, p1) ->
    Entries feed = e0 :: rest ->
    exists err p2,
      sendMatrixMessage (MatrixServer config) (MatrixRoomID config)
        (MatrixToken config)
        ("IT-News: [" +:+ Title e0 +:+ "](" +:+ Href (Link e0) +:+ ")") p1
      = (err, p2)
      /\ (pollFeed config feedURL lastUpdates p).2
         = {| world := world p2;
              trace := trace p2 ++ [EvPrintln (outcomeLine feedURL err)] |}
      /\ (err = None ->
          exists req, posts (trace (pollFeed config feedURL lastUpdates p).2)
                      = posts (trace p) ++ [req]).

(** ** Start-up *)

(** The file system and the JSON codec of the start-up code, as the program
    reaches them: [os.ReadFile], [json.Unmarshal] into a [Config] (the
    value decoded so far comes back with the error), [filepath.Dir],
    [os.MkdirAll], [json.MarshalIndent] of a [Config] and [os.WriteFile].
    The file operations read and change the world and leave no event in the
    trace. *)
Class FileSystem (World : Type) := {
  os_ReadFile : string -> World -> Result string * World;
  json_Unmarshal : string -> Config -> Config * option error;
  filepath_Dir : string -> string;
  os_MkdirAll : string -> Z -> World -> option error * World;
  json_MarshalIndent : Config -> string -> string -> Result string;
  os_WriteFile : string -> string -> Z -> World -> option error * World
}.

(** A call that changes the world without an event. *)
Definition sys {World A} (f : World -> A * World) : IO World A :=
  fun p => let '(a, w) := f (world p) in
           (a, {| world := w; trace := trace p |}).

(** The zero value of [Config], what [var config Config] declares. *)
Definition zeroConfig : Config := {|
  FeedURLs := [];
  MatrixServer := "";
  MatrixRoomID := "";
  MatrixToken := "";
  CheckInterval := 0
|}.

(** The literal written twice in the source, in [createDefaultConfig] and in
    [main]. *)
Definition defaultConfig : Config := {|
  FeedURLs := ["https://example.com/feed1"; "https://example.com/feed2"];
  MatrixServer := "https://matrix.org";
  MatrixRoomID := "!yourroomid:matrix.org";
  MatrixToken := "youraccesstoken";
  CheckInterval := 30
|}.

Definition configPath : string := "/etc/matrix-rss/config.json".

(** The file modes 0755 and 0644. *)
Definition mode_0755 : Z := 7 * 64 + 5 * 8 + 5.
Definition mode_0644 : Z := 6 * 64 + 4 * 8 + 4.

(** [reflect.DeepEqual] on the URL lists and [==] on the other fields. A
    list stands for a slice, so a nil slice and an empty one are the same
    list, while [DeepEqual] tells them apart: the function is the source's
    as soon as one of the two lists is not empty, as the default's is. *)
Definition isDefaultConfig (config defaultConfig : Config) : bool :=
  bool_decide (FeedURLs config = FeedURLs defaultConfig)
  && String.eqb (MatrixServer config) (MatrixServer defaultConfig)
  && String.eqb (MatrixRoomID config) (MatrixRoomID defaultConfig)
  && String.eqb (MatrixToken config) (MatrixToken defaultConfig)
  && Z.eqb (CheckInterval config) (CheckInterval defaultConfig).

(** How [main] ends its start-up: [os.Exit(code)], or the polling loop with
    the configuration that was loaded. *)
Inductive Startup :=
| Exit (code : Z)
| Run (config : Config).

Definition configNotFoundLine : string :=
  "Config not found, creating default config...".
Definition configCreatedLine : string :=
  "Default config created at /etc/matrix-rss/config.json. Please edit the config file and restart the program.".
Definition defaultDetectedLine : string :=
  "Default config values detected. Please edit the config file at /etc/matrix-rss/config.json and restart the program.".

Section StartupCode.
Context {World : Type} `{RT : Runtime World} `{FS : FileSystem World}.

(** [loadConfig] as the version of the file without the reload has it: the
    configuration is returned beside the error. (The other version decodes
    into the global [config] and returns the error alone.) *)
Definition loadConfig (configPath : string) : IO World (Config * option error) :=
  r <~ sys (os_ReadFile configPath) ;;
  match r with
  | Err err => ret (zeroConfig, Some err)
  | Ok file => ret (json_Unmarshal file zeroConfig)
  end.

Definition createDefaultConfig (configPath : string) : IO World (option error) :=
  let configDir := filepath_Dir configPath in
  e <~ sys (os_MkdirAll configDir mode_0755) ;;
  match e with
  | Some err => ret (Some err)
  | None =>
      match json_MarshalIndent defaultConfig "" "  " with
      | Err err => ret (Some err)
      | Ok configData => sys (os_WriteFile configPath configData mode_0644)
      end
  end.

(** [main] up to the polling loop. *)
Definition startup : IO World Startup :=
  r <~ loadConfig configPath ;;
  match r.2 with
  | Some _ =>
      Println [configNotFoundLine] ;;;
      e <~ createDefaultConfig configPath ;;
      match e with
      | Some err =>
          Println ["Error creating default config:"; Error err] ;;;
          ret (Exit 1)
      | None =>
          Println [configCreatedLine] ;;;
          ret (Exit 1)
      end
  | None =>
      if isDefaultConfig r.1 defaultConfig
      then Println [defaultDetectedLine] ;;; ret (Exit 1)
      else ret (Run r.1)
  end.

(** [main] with the first [n] rounds of its loop: the exit code, or [None]
    when the process is still polling after [n] rounds. The tracker is
    created empty. *)
Definition main (n : nat) : IO World (option Z) :=
  s <~ startup ;;
  match s with
  | Exit code => ret (Some code)
  | Run config => mainLoop n config ∅ ;;; ret None
  end.

End StartupCode.

(** ** Readings of a trace *)

(** The URLs fetched, in order. *)
Fixpoint gets (tr : list Event) : list string :=
  match tr with
  | [] => []
  | EvGet url :: rest => url :: gets rest
  | _ :: rest => gets rest
  end.

(** The durations slept, in order. *)
Fixpoint sleeps (tr : list Event) : list Z :=
  match tr with
  | [] => []
  | EvSleep d :: rest => d :: sleeps rest
  | _ :: rest => sleeps rest
  end.

(** The chat endpoint of a configuration. *)
Definition roomEndpoint (config : Config) : string :=
  MatrixServer config +:+ "/_matrix/client/r0/rooms/" +:+ MatrixRoomID config
  +:+ "/send/m.room.message?access_token=" +:+ MatrixToken config.

(** A request is a JSON POST to the chat endpoint of the configuration. *)
Definition toRoom (config : Config) (req : Request) : Prop :=
  Method req = "POST"
  /\ URL req = roomEndpoint config
  /\ Header req = {[ "Content-Type" := ["application/json"] ]}.

(** A scripted file system: the configuration file holds [content] (or is
    missing); the text "default" decodes to the default configuration, the
    text "mine" to the configuration of the scripted runs, anything else is
    malformed; creating the directory and writing the file succeed unless
    [readOnly]. The world counts the calls, as for the network. *)
Module ScriptedFiles.

Definition files (content : option string) (readOnly : bool)
  : FileSystem nat := {|
  os_ReadFile path w :=
    (match content with
     | Some data => if String.eqb path configPath then Ok data
                    else Err (errorString "no such file or directory")
     | None => Err (errorString "no such file or directory")
     end, S w);
  json_Unmarshal data config :=
    if String.eqb data "default" then (defaultConfig, None)
    else if String.eqb data "mine" then (Scripted.config, None)
    else (config, Some (errorString "invalid character"));
  filepath_Dir path := "/etc/matrix-rss";
  os_MkdirAll dir perm w :=
    (if readOnly then Some (errorString "read-only file system") else None, S w);
  json_MarshalIndent config prefix indent := Ok "default";
  os_WriteFile path data perm w := (None, S w)
|}.

(** The scripted runtime with an endpoint URL that does not parse. *)
Definition noEndpoint (marker : string) : Runtime nat := {|
  http_Get := http_Get (Runtime := Scripted.rt marker Scripted.ok200);
  client_Do := client_Do (Runtime := Scripted.rt marker Scripted.ok200);
  xml_Decode := xml_Decode (Runtime := Scripted.rt marker Scripted.ok200);
  markdown_ToHTML := markdown_ToHTML (Runtime := Scripted.rt marker Scripted.ok200);
  json_Marshal := json_Marshal (Runtime := Scripted.rt marker Scripted.ok200);
  url_Parse url := Some (errorString "invalid URL escape")
|}.

(** The configuration of the scripted runs with another interval. *)
Definition every (minutes : Z) : Config := {|
  FeedURLs := FeedURLs Scripted.config;
  MatrixServer := MatrixServer Scripted.config;
  MatrixRoomID := MatrixRoomID Scripted.config;
  MatrixToken := MatrixToken Scripted.config;
  CheckInterval := minutes
|}.

(** The process after its first call on the file system. *)
Definition afterRead : Proc nat := {| world := 1%nat; trace := [] |}.

End ScriptedFiles.

(** ** Properties *)

(** C4. For every title [t] and link [l] the message composed from an entry
    with that title and link is the string "IT-News: [" t "](" l ")"; the
    title "Big Release" with the link "https://x.io/a" gives
    "IT-News: [Big Release](https://x.io/a)". *)
Theorem composeMessage_literal :
  (forall (t l u : string),
      composeMessage {| Title := t; Updated := u; Link := {| Href := l |} |}
      = "IT-News: [" +:+ t +:+ "](" +:+ l +:+ ")")
  /\ (forall u : string,
         composeMessage {| Title := "Big Release"; Updated := u;
                           Link := {| Href := "https://x.io/a" |} |}
         = "IT-News: [Big Release](https://x.io/a)").
Proof.
  split; intros; reflexivity.
Qed.

(** *** The tracker and the guard *)

Lemma mapIndex_insert_eq (m : gmap string string) (key v : string) :
  mapIndex (<[key := v]> m) key = v.
Proof. unfold mapIndex. by rewrite lookup_insert_eq. Qed.

Lemma mapIndex_absent (m : gmap string string) (key : string) :
  m !! key = None -> mapIndex m key = "".
Proof. unfold mapIndex. by intros ->. Qed.

Lemma mapIndex_present (m : gmap string string) (key v : string) :
  m !! key = Some v -> mapIndex m key = v.
Proof. unfold mapIndex. by intros ->. Qed.

Lemma isNewUpdate_true (m : gmap string string) (key marker : string) :
  isNewUpdate m key marker = true <-> marker <> mapIndex m key.
Proof.
  unfold isNewUpdate. rewrite negb_true_iff.
  destruct (String.eqb_spec marker (mapIndex m key)) as [E | E].
  - split; [discriminate | intros H; by destruct H].
  - split; [by intros _ | reflexivity].
Qed.

Lemma isNewUpdate_false (m : gmap string string) (key marker : string) :
  isNewUpdate m key marker = false <-> marker = mapIndex m key.
Proof.
  unfold isNewUpdate. rewrite negb_false_iff. apply String.eqb_eq.
Qed.

Lemma hasNewUpdate_empty (feed : Feed) (m : gmap string string) (key : string) :
  Entries feed = [] -> hasNewUpdate feed m key = false.
Proof. unfold hasNewUpdate. by intros ->. Qed.

Lemma hasNewUpdate_first (feed : Feed) (e0 : Entry) (rest : list Entry)
    (m : gmap string string) (key : string) :
  Entries feed = e0 :: rest ->
  hasNewUpdate feed m key = isNewUpdate m key (Updated e0).
Proof. unfold hasNewUpdate. by intros ->. Qed.

(** The index expression [feed.Entries[0]] is in range whenever the guard
    holds: the [if] body cannot panic. *)
Lemma hasNewUpdate_in_range (feed : Feed) (m : gmap string string) (key : string) :
  hasNewUpdate feed m key = true ->
  Entries feed !! 0%nat = Some (Entries feed !!! 0%nat).
Proof.
  unfold hasNewUpdate. destruct (Entries feed) as [| e0 rest]; [done | by intros _].
Qed.

(** *** Traces *)

Lemma posts_app (tr1 tr2 : list Event) :
  posts (tr1 ++ tr2) = posts tr1 ++ posts tr2.
Proof.
  induction tr1 as [| ev tr1 IH]; simpl; [reflexivity |].
  destruct ev; simpl; by rewrite IH.
Qed.

Lemma posts_get (tr : list Event) (url : string) :
  posts (tr ++ [EvGet url]) = posts tr.
Proof. rewrite posts_app. simpl. apply app_nil_r. Qed.

Lemma posts_println (tr : list Event) (line : string) :
  posts (tr ++ [EvPrintln line]) = posts tr.
Proof. rewrite posts_app. simpl. apply app_nil_r. Qed.

(** *** One step of the loop, case by case *)

Section Steps.
Context {World : Type} `{RT : Runtime World}.
Implicit Types (p : Proc World) (lastUpdates : gmap string string).

Lemma fetchFeed_trace url p r p1 :
  fetchFeed url p = (r, p1) -> trace p1 = trace p ++ [EvGet url].
Proof.
  unfold fetchFeed, bind, call, ret.
  destruct (http_Get url (world p)) as [[body | e] w]; simpl.
  - destruct (xml_Decode body); intros [= _ <-]; reflexivity.
  - intros [= _ <-]; reflexivity.
Qed.

Lemma pollFeed_fetch_error config feedURL lastUpdates p err p1 :
  fetchFeed feedURL p = (Err err, p1) ->
  pollFeed config feedURL lastUpdates p
  = (lastUpdates,
     {| world := world p1;
        trace := trace p1 ++ [EvPrintln ("Error fetching feed: " +:+ Error err)] |}).
Proof.
  intros H. unfold pollFeed, bind. rewrite H. reflexivity.
Qed.

Lemma pollFeed_skip config feedURL lastUpdates p feed p1 :
  fetchFeed feedURL p = (Ok feed, p1) ->
  hasNewUpdate feed lastUpdates feedURL = false ->
  pollFeed config feedURL lastUpdates p = (lastUpdates, p1).
Proof.
  intros H G. unfold pollFeed, bind. rewrite H, G. reflexivity.
Qed.

Lemma notifyUpdate_outcome config feedURL feed lastUpdates p1 err p2 :
  sendMatrixMessage (MatrixServer config) (MatrixRoomID config)
    (MatrixToken config) (composeMessage (Entries feed !!! 0%nat)) p1
  = (err, p2) ->
  notifyUpdate config feedURL feed lastUpdates p1
  = (<[feedURL := Updated (Entries feed !!! 0%nat)]> lastUpdates,
     {| world := world p2;
        trace := trace p2 ++ [EvPrintln (outcomeLine feedURL err)] |}).
Proof.
  intros H. unfold notifyUpdate, bind. rewrite H.
  destruct err; reflexivity.
Qed.

Lemma pollFeed_notify config feedURL lastUpdates p feed p1 err p2 :
  fetchFeed feedURL p = (Ok feed, p1) ->
  hasNewUpdate feed lastUpdates feedURL = true ->
  sendMatrixMessage (MatrixServer config) (MatrixRoomID config)
    (MatrixToken config) (composeMessage (Entries feed !!! 0%nat)) p1
  = (err, p2) ->
  pollFeed config feedURL lastUpdates p
  = (<[feedURL := Updated (Entries feed !!! 0%nat)]> lastUpdates,
     {| world := world p2;
        trace := trace p2 ++ [EvPrintln (outcomeLine feedURL err)] |}).
Proof.
  intros H G S. unfold pollFeed, bind. rewrite H, G.
  by apply notifyUpdate_outcome.
Qed.

Lemma pollFeed_guard config feedURL lastUpdates p feed p1 :
  fetchFeed feedURL p = (Ok feed, p1) ->
  pollFeed config feedURL lastUpdates p
  = if hasNewUpdate feed lastUpdates feedURL
    then notifyUpdate config feedURL feed lastUpdates p1
    else (lastUpdates, p1).
Proof.
  intros H. unfold pollFeed, bind. rewrite H.
  by destruct (hasNewUpdate feed lastUpdates feedURL).
Qed.

Lemma notifyUpdate_tracker config feedURL feed lastUpdates p1 :
  (notifyUpdate config feedURL feed lastUpdates p1).1
  = <[feedURL := Updated (Entries feed !!! 0%nat)]> lastUpdates.
Proof.
  destruct (sendMatrixMessage (MatrixServer config) (MatrixRoomID config)
              (MatrixToken config) (composeMessage (Entries feed !!! 0%nat)) p1)
    as [err p2] eqn:S.
  by rewrite (notifyUpdate_outcome _ _ _ _ _ _ _ S).
Qed.

Lemma pollFeeds_app config before after lastUpdates p :
  pollFeeds config (before ++ after) lastUpdates p
  = let '(lastUpdates', p') := pollFeeds config before lastUpdates p in
    pollFeeds config after lastUpdates' p'.
Proof.
  revert lastUpdates p.
  induction before as [| feedURL before IH]; intros lastUpdates p; simpl.
  - reflexivity.
  - unfold bind.
    destruct (pollFeed config feedURL lastUpdates p) as [lu' p'].
    apply IH.
Qed.

End Steps.

(** *** Delivery *)

Lemma append_empty_r (s : string) : s +:+ "" = s.
Proof.
  induction s as [| c s IH]; [reflexivity |].
  change (String c (s +:+ "") = String c s). by rewrite IH.
Qed.

Lemma endpoint_url (server roomID token : string) :
  Sprintf "%s/_matrix/client/r0/rooms/%s/send/m.room.message?access_token=%s"
          [server; roomID; token]
  = server +:+ "/_matrix/client/r0/rooms/" +:+ roomID
    +:+ "/send/m.room.message?access_token=" +:+ token.
Proof. cbn. by rewrite append_empty_r. Qed.

Lemma matrixPayload_dom (message htmlMessage : string) :
  dom (matrixPayload message htmlMessage)
  = ({[ "msgtype"; "body"; "format"; "formatted_body" ]} : gset string).
Proof.
  unfold matrixPayload. rewrite !dom_insert_L, dom_singleton_L. set_solver.
Qed.

Section Delivery.
Context {World : Type} `{RT : Runtime World}.
Implicit Types (p : Proc World).

(** The request [sendMatrixMessage] builds from the encoded payload. *)
Lemma sendMatrixMessage_run server roomID token message p :
  sendMatrixMessage server roomID token message p
  = match json_Marshal (matrixPayload message (markdown_ToHTML message)) with
    | Err err => (Some err, p)
    | Ok payloadBytes =>
        let url := server +:+ "/_matrix/client/r0/rooms/" +:+ roomID
                   +:+ "/send/m.room.message?access_token=" +:+ token in
        match url_Parse url with
        | Some err => (Some err, p)
        | None =>
            let req := {| Method := "POST"; URL := url;
                          Header := {[ "Content-Type" := ["application/json"] ]};
                          Body := payloadBytes |} in
            let after := {| world := (client_Do req (world p)).2;
                            trace := trace p ++ [EvDo req] |} in
            match (client_Do req (world p)).1 with
            | Err err => (Some err, after)
            | Ok resp =>
                if bool_decide (StatusCode resp = 200)
                then (None, after)
                else (Some (errorString ("failed to send message: "
                                         +:+ Status resp)), after)
            end
        end
    end.
Proof.
  unfold sendMatrixMessage. rewrite endpoint_url.
  destruct (json_Marshal _) as [payloadBytes | err]; [| reflexivity].
  unfold http_NewRequest.
  destruct (url_Parse _) as [err |]; [reflexivity |].
  unfold bind, call, Header_Set; simpl.
  rewrite insert_empty.
  destruct (client_Do _ (world p)) as [[resp | err] w]; simpl; [| reflexivity].
  unfold http_StatusOK, Errorf, ret.
  destruct (decide (StatusCode resp = 200)) as [E | E].
  - rewrite bool_decide_eq_false_2 by (intros H; by apply H).
    by rewrite bool_decide_eq_true_2.
  - rewrite bool_decide_eq_true_2 by done.
    rewrite bool_decide_eq_false_2 by done.
    cbn. by rewrite append_empty_r.
Qed.

(** A delivery that returns nil has handed exactly one request to
    [client.Do]: a POST whose body is the encoded payload. *)
Lemma sendMatrixMessage_nil server roomID token message p p2 :
  sendMatrixMessage server roomID token message p = (None, p2) ->
  exists req,
    Method req = "POST"
    /\ json_Marshal (matrixPayload message (markdown_ToHTML message))
       = Ok (Body req)
    /\ trace p2 = trace p ++ [EvDo req].
Proof.
  rewrite sendMatrixMessage_run.
  destruct (json_Marshal _) as [payloadBytes | err]; [| discriminate].
  cbv zeta.
  destruct (url_Parse _) as [err |]; [discriminate |].
  intros Hs.
  match type of Hs with
  | context [EvDo ?r] => exists r
  end.
  split; [reflexivity |]. split; [reflexivity |].
  destruct (client_Do _ (world p)) as [[resp | err] w]; simpl in Hs;
    [| discriminate Hs].
  case_bool_decide; [| discriminate Hs].
  by injection Hs as <-.
Qed.

End Delivery.

(** C8. The delivery operation sends the four-field payload (msgtype
    "m.text", body the message, format "org.matrix.custom.html",
    formatted_body the HTML rendering of the message), JSON-encoded, in one
    POST to server/_matrix/client/r0/rooms/roomID/send/m.room.message with
    the token as the access_token query parameter, whenever the request can
    be built; it returns nil exactly when the request could be built and
    sent and the answer has status 200, and an error otherwise. *)
Theorem sendMatrixMessage_post :
  forall (World : Type) (RT : Runtime World)
         (server roomID token message : string) (p : Proc World),
    let url := server +:+ "/_matrix/client/r0/rooms/" +:+ roomID
               +:+ "/send/m.room.message?access_token=" +:+ token in
    let payload := matrixPayload message (markdown_ToHTML message) in
    let res := sendMatrixMessage server roomID token message p in
    (payload !! "msgtype" = Some "m.text"
     /\ payload !! "body" = Some message
     /\ payload !! "format" = Some "org.matrix.custom.html"
     /\ payload !! "formatted_body" = Some (markdown_ToHTML message)
     /\ dom payload = ({[ "msgtype"; "body"; "format"; "formatted_body" ]} : gset string))
    /\ match json_Marshal payload, url_Parse url with
       | Ok payloadBytes, None =>
           let req := {| Method := "POST"; URL := url;
                         Header := {[ "Content-Type" := ["application/json"] ]};
                         Body := payloadBytes |} in
           res.2 = {| world := (client_Do req (world p)).2;
                      trace := trace p ++ [EvDo req] |}
           /\ (res.1 = None
               <-> exists resp, (client_Do req (world p)).1 = Ok resp
                                /\ StatusCode resp = 200)
       | _, _ => res.2 = p /\ res.1 <> None
       end.
Proof.
  intros World RT server roomID token message p url payload res.
  split.
  - repeat split; try apply matrixPayload_dom; by vm_compute.
  - subst res url payload. rewrite sendMatrixMessage_run.
    destruct (json_Marshal _) as [payloadBytes | err]; [| by split].
    cbv zeta.
    destruct (url_Parse _) as [err |]; [by split |].
    destruct (client_Do _ (world p)) as [[resp | err] w]; simpl.
    + case_bool_decide as E; simpl; (split; [reflexivity |]).
      * split; [intros _; by exists resp | reflexivity].
      * split; [discriminate | intros (r & [= <-] & Hr); by destruct E].
    + split; [reflexivity |].
      split; [discriminate | intros (r & [=] & _)].
Qed.

(** *** The newness test *)

(** C2, counterexample. The test of the specification fails on the empty
    tracker with the empty candidate marker: nothing is recorded, yet the
    test says "not new". *)
Lemma new_iff_absent_or_different_fails : ~ new_iff_absent_or_different.
Proof.
  intros H.
  destruct (H ∅ "https://a.example/feed1" "") as [_ H2].
  discriminate H2. left. apply lookup_empty.
Qed.

(** C2, amended. The newness test is true exactly when the recorded marker,
    read as the empty string when none is recorded, is another string than
    the candidate: either nothing is recorded and the candidate is not
    empty, or the recorded marker differs from the candidate. *)
Theorem isNewUpdate_iff :
  forall (lastUpdates : gmap string string) (feedURL candidateMarker : string),
    isNewUpdate lastUpdates feedURL candidateMarker = true
    <-> ((lastUpdates !! feedURL = None /\ candidateMarker <> "")
         \/ exists recorded, lastUpdates !! feedURL = Some recorded
                             /\ recorded <> candidateMarker).
Proof.
  intros lastUpdates feedURL candidateMarker.
  rewrite isNewUpdate_true. unfold mapIndex.
  destruct (lastUpdates !! feedURL) as [recorded |] eqn:E; simpl.
  - split.
    + intros H. right. exists recorded. split; [reflexivity | congruence].
    + intros [[[=] _] | (r & [= <-] & H)]. congruence.
  - split.
    + intros H. by left.
    + intros [[_ H] | (r & [=] & _)]. exact H.
Qed.

(** C10. With no marker recorded for the feed and an empty marker on the
    first entry, the step sends nothing and leaves the tracker as it is:
    the lookup of the missing key gives the empty string, equal to the
    candidate. *)
Theorem empty_marker_never_notified :
  forall (World : Type) (RT : Runtime World) (config : Config)
         (feedURL : string) (lastUpdates : gmap string string)
         (p p1 : Proc World) (feed : Feed) (e0 : Entry) (rest : list Entry),
    lastUpdates !! feedURL = None ->
    fetchFeed feedURL p = (Ok feed, p1) ->
    Entries feed = e0 :: rest ->
    Updated e0 = "" ->
    mapIndex lastUpdates feedURL = ""
    /\ isNewUpdate lastUpdates feedURL (Updated e0)
       = isNewUpdate (<[feedURL := ""]> lastUpdates) feedURL (Updated e0)
    /\ pollFeed config feedURL lastUpdates p = (lastUpdates, p1)
    /\ posts (trace p1) = posts (trace p).
Proof.
  intros World RT config feedURL lastUpdates p p1 feed e0 rest Habs Hf He Hm.
  assert (Hidx : mapIndex lastUpdates feedURL = "") by by apply mapIndex_absent.
  split; [exact Hidx |].
  split.
  { unfold isNewUpdate. by rewrite Hidx, mapIndex_insert_eq. }
  split.
  - apply (pollFeed_skip config _ _ _ feed); [exact Hf |].
    rewrite (hasNewUpdate_first _ e0 rest) by exact He.
    apply isNewUpdate_false. by rewrite Hm, Hidx.
  - rewrite (fetchFeed_trace _ _ _ _ Hf). apply posts_get.
Qed.

(** *** Unchanged markers and empty feeds *)

Lemma composeMessage_text (e : Entry) :
  composeMessage e = "IT-News: [" +:+ Title e +:+ "](" +:+ Href (Link e) +:+ ")".
Proof. reflexivity. Qed.

(** C6. When the marker of the first entry is the marker recorded for the
    URL, the step sends nothing and returns the tracker it was given, for
    every title and link of the entry. *)
Theorem same_marker_no_notification :
  forall (World : Type) (RT : Runtime World) (config : Config)
         (feedURL marker : string) (lastUpdates : gmap string string)
         (p p1 : Proc World) (feed : Feed) (e0 : Entry) (rest : list Entry),
    lastUpdates !! feedURL = Some marker ->
    fetchFeed feedURL p = (Ok feed, p1) ->
    Entries feed = e0 :: rest ->
    Updated e0 = marker ->
    pollFeed config feedURL lastUpdates p = (lastUpdates, p1)
    /\ trace p1 = trace p ++ [EvGet feedURL]
    /\ posts (trace p1) = posts (trace p).
Proof.
  intros World RT config feedURL marker lastUpdates p p1 feed e0 rest Hrec Hf He Hm.
  pose proof (fetchFeed_trace _ _ _ _ Hf) as Ht.
  split; [| split; [exact Ht | rewrite Ht; apply posts_get]].
  apply (pollFeed_skip config _ _ _ feed); [exact Hf |].
  rewrite (hasNewUpdate_first _ e0 rest) by exact He.
  apply isNewUpdate_false. by rewrite Hm, (mapIndex_present _ _ marker).
Qed.

(** C9. Two snapshots of a feed that are both empty, or whose first entries
    carry the same marker, get the same decision against the same tracker,
    whatever the titles and links: the guard has the same value, both steps
    skip or both notify, and both return the same tracker. *)
Theorem decision_depends_on_marker_only :
  forall (World : Type) (RT : Runtime World) (config : Config)
         (feedURL : string) (lastUpdates : gmap string string) (f1 f2 : Feed),
    ((Entries f1 = [] /\ Entries f2 = [])
     \/ exists e1 r1 e2 r2, Entries f1 = e1 :: r1 /\ Entries f2 = e2 :: r2
                            /\ Updated e1 = Updated e2) ->
    hasNewUpdate f1 lastUpdates feedURL = hasNewUpdate f2 lastUpdates feedURL
    /\ forall (p p' p1 p1' : Proc World),
         fetchFeed feedURL p = (Ok f1, p1) ->
         fetchFeed feedURL p' = (Ok f2, p1') ->
         (pollFeed config feedURL lastUpdates p).1
         = (pollFeed config feedURL lastUpdates p').1
         /\ ((pollFeed config feedURL lastUpdates p = (lastUpdates, p1)
              /\ pollFeed config feedURL lastUpdates p' = (lastUpdates, p1'))
             \/ (pollFeed config feedURL lastUpdates p
                 = notifyUpdate config feedURL f1 lastUpdates p1
                 /\ pollFeed config feedURL lastUpdates p'
                    = notifyUpdate config feedURL f2 lastUpdates p1')).
Proof.
  intros World RT config feedURL lastUpdates f1 f2 Hsame.
  assert (Hg : hasNewUpdate f1 lastUpdates feedURL
               = hasNewUpdate f2 lastUpdates feedURL).
  { destruct Hsame as [[H1 H2] | (e1 & r1 & e2 & r2 & H1 & H2 & Hm)].
    - by rewrite !hasNewUpdate_empty.
    - rewrite (hasNewUpdate_first _ e1 r1), (hasNewUpdate_first _ e2 r2) by done.
      by rewrite Hm. }
  assert (Hm : Updated (Entries f1 !!! 0%nat) = Updated (Entries f2 !!! 0%nat)).
  { destruct Hsame as [[H1 H2] | (e1 & r1 & e2 & r2 & H1 & H2 & Hm)].
    - by rewrite H1, H2.
    - by rewrite H1, H2. }
  split; [exact Hg |].
  intros p p' p1 p1' Hf Hf'.
  rewrite (pollFeed_guard _ _ _ _ _ _ Hf), (pollFeed_guard _ _ _ _ _ _ Hf').
  rewrite <- Hg.
  destruct (hasNewUpdate f1 lastUpdates feedURL).
  - split; [| by right].
    by rewrite !notifyUpdate_tracker, Hm.
  - split; [reflexivity | by left].
Qed.

(** C7. A fetched feed without entries makes the step a no-op: nothing is
    sent and the tracker is returned as it was. With two distinct feeds and
    an empty tracker, feed1 returning an entry marked "2024-01-01T00:00Z"
    and feed2 returning no entries, the pass ends with the tracker
    {feed1: "2024-01-01T00:00Z"}, without an entry for feed2, and the one
    notification is the one for feed1. *)
Theorem empty_feed_is_skipped :
  (forall (World : Type) (RT : Runtime World) (config : Config)
          (feedURL : string) (lastUpdates : gmap string string)
          (p p1 : Proc World) (feed : Feed),
      fetchFeed feedURL p = (Ok feed, p1) ->
      Entries feed = [] ->
      pollFeed config feedURL lastUpdates p = (lastUpdates, p1)
      /\ posts (trace p1) = posts (trace p))
  /\ (forall (World : Type) (RT : Runtime World) (config : Config)
             (feed1 feed2 : string) (p p1 p2 p4 : Proc World)
             (f1 f2 : Feed) (e0 : Entry) (rest : list Entry)
             (out : option error),
         feed1 <> feed2 ->
         fetchFeed feed1 p = (Ok f1, p1) ->
         Entries f1 = e0 :: rest ->
         Updated e0 = "2024-01-01T00:00Z" ->
         sendMatrixMessage (MatrixServer config) (MatrixRoomID config)
           (MatrixToken config) (composeMessage e0) p1 = (out, p2) ->
         fetchFeed feed2
           {| world := world p2;
              trace := trace p2 ++ [EvPrintln (outcomeLine feed1 out)] |}
         = (Ok f2, p4) ->
         Entries f2 = [] ->
         pollFeeds config [feed1; feed2] ∅ p
         = ({[ feed1 := "2024-01-01T00:00Z" ]}, p4)
         /\ ({[ feed1 := "2024-01-01T00:00Z" ]} : gmap string string) !! feed2 = None
         /\ posts (trace p4) = posts (trace p2)
         /\ (out = None ->
             exists req,
               Method req = "POST"
               /\ json_Marshal (matrixPayload (composeMessage e0)
                                  (markdown_ToHTML (composeMessage e0)))
                  = Ok (Body req)
               /\ trace p4
                  = trace p ++ [EvGet feed1; EvDo req;
                                EvPrintln ("Update message sent for feed: " +:+ feed1);
                                EvGet feed2])).
Proof.
  split.
  - intros World RT config feedURL lastUpdates p p1 feed Hf He.
    split.
    + apply (pollFeed_skip config _ _ _ feed); [exact Hf |].
      by apply hasNewUpdate_empty.
    + rewrite (fetchFeed_trace _ _ _ _ Hf). apply posts_get.
  - intros World RT config feed1 feed2 p p1 p2 p4 f1 f2 e0 rest out
           Hne Hf1 He1 Hm Hs Hf2 He2.
    assert (Hidx : Entries f1 !!! 0%nat = e0) by by rewrite He1.
    assert (Hstep1 : pollFeed config feed1 ∅ p
                     = ({[ feed1 := "2024-01-01T00:00Z" ]},
                        {| world := world p2;
                           trace := trace p2 ++ [EvPrintln (outcomeLine feed1 out)] |})).
    { rewrite (pollFeed_notify config feed1 ∅ p f1 p1 out p2 Hf1).
      - by rewrite Hidx, Hm, insert_empty.
      - rewrite (hasNewUpdate_first _ e0 rest) by exact He1.
        apply isNewUpdate_true. by rewrite Hm.
      - by rewrite Hidx. }
    split; [| split; [| split]].
    + simpl. unfold bind. rewrite Hstep1.
      rewrite (pollFeed_skip config feed2 _ _ f2 p4 Hf2)
        by by apply hasNewUpdate_empty.
      reflexivity.
    + by apply lookup_singleton_ne.
    + rewrite (fetchFeed_trace _ _ _ _ Hf2). simpl.
      by rewrite posts_get, posts_println.
    + intros ->.
      destruct (sendMatrixMessage_nil _ _ _ _ _ _ Hs) as (req & Hpost & Hbody & Ht).
      exists req. split; [exact Hpost |]. split; [exact Hbody |].
      rewrite (fetchFeed_trace _ _ _ _ Hf2). simpl.
      rewrite Ht, (fetchFeed_trace _ _ _ _ Hf1).
      by rewrite <- !app_assoc.
Qed.

(** *** Failures *)

(** C5. When the fetch of a feed fails, the error is printed and the step
    ends there: the tracker is returned as it was and no message is sent.
    The feeds before it in the pass have been processed as usual, and the
    feeds after it are processed by the same pass from the state the failed
    step leaves. *)
Theorem fetch_error_skips_feed_only :
  forall (World : Type) (RT : Runtime World) (config : Config)
         (before after : list string) (feedURL : string)
         (lastUpdates lastUpdates1 : gmap string string)
         (p p1 p2 : Proc World) (err : error),
    pollFeeds config before lastUpdates p = (lastUpdates1, p1) ->
    fetchFeed feedURL p1 = (Err err, p2) ->
    let reported :=
      {| world := world p2;
         trace := trace p1 ++ [EvGet feedURL;
                               EvPrintln ("Error fetching feed: " +:+ Error err)] |} in
    pollFeed config feedURL lastUpdates1 p1 = (lastUpdates1, reported)
    /\ posts (trace reported) = posts (trace p1)
    /\ pollFeeds config (before ++ feedURL :: after) lastUpdates p
       = pollFeeds config after lastUpdates1 reported.
Proof.
  intros World RT config before after feedURL lastUpdates lastUpdates1
         p p1 p2 err Hbefore Hf reported.
  assert (Hstep : pollFeed config feedURL lastUpdates1 p1 = (lastUpdates1, reported)).
  { rewrite (pollFeed_fetch_error _ _ _ _ _ _ Hf). subst reported.
    rewrite (fetchFeed_trace _ _ _ _ Hf). by rewrite <- app_assoc. }
  split; [exact Hstep |]. split.
  - subst reported. simpl. rewrite posts_app. simpl. apply app_nil_r.
  - rewrite pollFeeds_app, Hbefore. simpl. unfold bind. by rewrite Hstep.
Qed.

(** C1, counterexample. The statement of the specification about failed
    deliveries does not hold: with an empty tracker, a feed whose first
    entry is marked "m1" and a chat server answering 500, the step leaves
    "m1" recorded. *)
Lemma failed_delivery_leaves_tracker_fails : ~ failed_delivery_leaves_tracker.
Proof.
  intros H.
  edestruct (H nat (Scripted.runtime (Scripted.twoFeeds "m1" Scripted.err500))
               Scripted.config "https://a.example/feed1" ∅ Scripted.start)
    as [H1 _].
  - vm_compute. reflexivity.
  - vm_compute. reflexivity.
  - vm_compute. reflexivity.
  - vm_compute in H1. discriminate H1.
Qed.

(** C1, amended. When the marker of the first entry is judged new, it is
    stored in the tracker before the message is sent and stays there
    whatever the delivery returns, a failure included; no other entry of
    the tracker changes. The same marker is then no longer new: the next
    step that fetches it for this feed sends nothing. *)
Theorem new_marker_recorded_before_delivery :
  forall (World : Type) (RT : Runtime World) (config : Config)
         (feedURL : string) (lastUpdates : gmap string string)
         (p p1 p2 : Proc World) (feed : Feed) (out : option error),
    fetchFeed feedURL p = (Ok feed, p1) ->
    hasNewUpdate feed lastUpdates feedURL = true ->
    sendMatrixMessage (MatrixServer config) (MatrixRoomID config)
      (MatrixToken config) (composeMessage (Entries feed !!! 0%nat)) p1
    = (out, p2) ->
    let marker := Updated (Entries feed !!! 0%nat) in
    let lastUpdates' := (pollFeed config feedURL lastUpdates p).1 in
    lastUpdates' = <[feedURL := marker]> lastUpdates
    /\ lastUpdates' !! feedURL = Some marker
    /\ (forall other, other <> feedURL ->
                      lastUpdates' !! other = lastUpdates !! other)
    /\ isNewUpdate lastUpdates' feedURL marker = false
    /\ (forall (p' p1' : Proc World) (feed' : Feed),
           fetchFeed feedURL p' = (Ok feed', p1') ->
           Updated (Entries feed' !!! 0%nat) = marker ->
           pollFeed config feedURL lastUpdates' p' = (lastUpdates', p1')).
Proof.
  intros World RT config feedURL lastUpdates p p1 p2 feed out Hf Hg Hs
         marker lastUpdates'.
  assert (E : lastUpdates' = <[feedURL := marker]> lastUpdates).
  { subst lastUpdates'. by rewrite (pollFeed_notify _ _ _ _ _ _ _ _ Hf Hg Hs). }
  assert (Hold : isNewUpdate lastUpdates' feedURL marker = false).
  { apply isNewUpdate_false. by rewrite E, mapIndex_insert_eq. }
  split; [exact E |]. rewrite E in *.
  split; [apply lookup_insert_eq |].
  split; [intros other Hne; by apply lookup_insert_ne |].
  split; [exact Hold |].
  intros p' p1' feed' Hf' Hm'.
  apply (pollFeed_skip config _ _ _ feed'); [exact Hf' |].
  unfold hasNewUpdate. rewrite Hm', Hold. apply andb_false_r.
Qed.

(** C3, counterexample. The statement of the specification about the first
    poll does not hold for an entry with the empty marker: the step only
    fetches. *)
Lemma first_poll_always_notifies_fails : ~ first_poll_always_notifies.
Proof.
  intros H.
  edestruct (H nat (Scripted.runtime (Scripted.twoFeeds "" Scripted.ok200))
               Scripted.config "https://a.example/feed1" ∅ Scripted.start)
    as (err & p2 & Hs & Hp & _).
  - apply lookup_empty.
  - vm_compute. reflexivity.
  - reflexivity.
  - vm_compute in Hs. injection Hs as <- <-.
    apply (f_equal trace) in Hp. vm_compute in Hp. discriminate Hp.
Qed.

(** C3, amended. With no marker recorded for the feed, a fetch that returns
    at least one entry whose first entry has a non-empty marker leads to
    one notification, made of the title and the link of the first entry:
    the step ends in the state the one call of [sendMatrixMessage] leaves,
    plus the line reporting its outcome, and a successful delivery adds
    exactly one request to those sent before the step. *)
Theorem first_poll_notifies :
  forall (World : Type) (RT : Runtime World) (config : Config)
         (feedURL : string) (lastUpdates : gmap string string)
         (p p1 : Proc World) (feed : Feed) (e0 : Entry) (rest : list Entry),
    lastUpdates !! feedURL = None ->
    fetchFeed feedURL p = (Ok feed, p1) ->
    Entries feed = e0 :: rest ->
    Updated e0 <> "" ->
    exists err p2,
      sendMatrixMessage (MatrixServer config) (MatrixRoomID config)
        (MatrixToken config)
        ("IT-News: [" +:+ Title e0 +:+ "](" +:+ Href (Link e0) +:+ ")") p1
      = (err, p2)
      /\ (pollFeed config feedURL lastUpdates p).2
         = {| world := world p2;
              trace := trace p2 ++ [EvPrintln (outcomeLine feedURL err)] |}
      /\ (err = None ->
          exists req, posts (trace (pollFeed config feedURL lastUpdates p).2)
                      = posts (trace p) ++ [req]).
Proof.
  intros World RT config feedURL lastUpdates p p1 feed e0 rest Habs Hf He Hm.
  rewrite <- composeMessage_text.
  destruct (sendMatrixMessage (MatrixServer config) (MatrixRoomID config)
              (MatrixToken config) (composeMessage e0) p1) as [err p2] eqn:Hs.
  exists err, p2. split; [reflexivity |].
  assert (Hidx : Entries feed !!! 0%nat = e0) by by rewrite He.
  rewrite (pollFeed_notify config feedURL lastUpdates p feed p1 err p2 Hf).
  - split; [reflexivity |]. intros ->. simpl.
    destruct (sendMatrixMessage_nil _ _ _ _ _ _ Hs) as (req & _ & _ & Ht).
    exists req.
    by rewrite posts_println, Ht, posts_app, (fetchFeed_trace _ _ _ _ Hf), posts_get.
  - rewrite (hasNewUpdate_first _ e0 rest) by exact He.
    apply isNewUpdate_true. by rewrite (mapIndex_absent _ _ Habs).
  - by rewrite Hidx.
Qed.

(** *** The theorems at work on the scripted runtime *)

Section Runs.
Import Scripted.

(** A failed delivery (status 500) of a new marker "m1": the marker is in
    the tracker afterwards. *)
Lemma new_marker_recorded_before_delivery_run :
  (pollFeed (RT := rt "m1" err500) config feed1URL ∅ start).1
  = <[feed1URL := "m1"]> ∅.
Proof.
  refine (proj1 (new_marker_recorded_before_delivery nat (rt "m1" err500)
                   config feed1URL ∅ start (afterGet feed1URL)
                   {| world := 2%nat;
                      trace := [EvGet feed1URL; EvDo bigReleasePost] |}
                   (oneEntry "m1")
                   (Some (errorString
                      "failed to send message: 500 Internal Server Error"))
                   _ _ _));
    vm_compute; reflexivity.
Defined.

(** The first poll of a feed whose first entry is marked "m1". *)
Lemma first_poll_notifies_run :
  exists err p2,
    sendMatrixMessage (RT := rt "m1" ok200) "https://m.example" "!r:m.example"
      "tok" "IT-News: [Big Release](https://x.io/a)" (afterGet feed1URL)
    = (err, p2)
    /\ (pollFeed (RT := rt "m1" ok200) config feed1URL ∅ start).2
       = {| world := world p2;
            trace := trace p2 ++ [EvPrintln (outcomeLine feed1URL err)] |}
    /\ (err = None ->
        exists req,
          posts (trace (pollFeed (RT := rt "m1" ok200) config feed1URL ∅ start).2)
          = posts (trace start) ++ [req]).
Proof.
  refine (first_poll_notifies nat (rt "m1" ok200) config feed1URL ∅ start
            (afterGet feed1URL) (oneEntry "m1") (bigRelease "m1") [] _ _ _ _).
  - apply lookup_empty.
  - vm_compute; reflexivity.
  - reflexivity.
  - discriminate.
Defined.

(** A pass over feed2, a URL that refuses the connection, and feed1. *)
Lemma fetch_error_skips_feed_only_run :
  pollFeeds (RT := rt "m1" ok200) config ([feed2URL] ++ goneURL :: [feed1URL])
            ∅ start
  = pollFeeds (RT := rt "m1" ok200) config [feed1URL] ∅
      {| world := 2%nat;
         trace := [EvGet feed2URL; EvGet goneURL;
                   EvPrintln "Error fetching feed: connection refused"] |}.
Proof.
  refine (proj2 (proj2 (fetch_error_skips_feed_only nat (rt "m1" ok200) config
            [feed2URL] [feed1URL] goneURL ∅ ∅ start (afterGet feed2URL)
            {| world := 2%nat; trace := [EvGet feed2URL; EvGet goneURL] |}
            (errorString "connection refused") _ _)));
    vm_compute; reflexivity.
Defined.

(** The marker "m1" is recorded and fetched again. *)
Lemma same_marker_no_notification_run :
  pollFeed (RT := rt "m1" ok200) config feed1URL {[ feed1URL := "m1" ]} start
  = ({[ feed1URL := "m1" ]}, afterGet feed1URL).
Proof.
  refine (proj1 (same_marker_no_notification nat (rt "m1" ok200) config
            feed1URL "m1" {[ feed1URL := "m1" ]} start (afterGet feed1URL)
            (oneEntry "m1") (bigRelease "m1") [] _ _ _ _)).
  - apply lookup_singleton_eq.
  - vm_compute; reflexivity.
  - reflexivity.
  - reflexivity.
Defined.

(** The two-feed scenario, with a chat server that answers 200. *)
Lemma empty_feed_is_skipped_run :
  pollFeed (RT := rt "m1" ok200) config feed2URL ∅ start
  = (∅, afterGet feed2URL)
  /\ pollFeeds (RT := rt "2024-01-01T00:00Z" ok200) config [feed1URL; feed2URL]
       ∅ start
     = ({[ feed1URL := "2024-01-01T00:00Z" ]},
        {| world := 3%nat;
           trace := [EvGet feed1URL; EvDo bigReleasePost;
                     EvPrintln "Update message sent for feed: https://a.example/feed1";
                     EvGet feed2URL] |}).
Proof.
  split.
  - refine (proj1 (proj1 empty_feed_is_skipped nat (rt "m1" ok200) config
              feed2URL ∅ start (afterGet feed2URL) noEntries _ _));
      vm_compute; reflexivity.
  - refine (proj1 (proj2 empty_feed_is_skipped nat
              (rt "2024-01-01T00:00Z" ok200) config feed1URL feed2URL start
              (afterGet feed1URL)
              {| world := 2%nat;
                 trace := [EvGet feed1URL; EvDo bigReleasePost] |}
              _ (oneEntry "2024-01-01T00:00Z") noEntries
              (bigRelease "2024-01-01T00:00Z") [] None _ _ _ _ _ _ _));
      try (vm_compute; reflexivity).
    discriminate.
Defined.

(** Two snapshots with the marker "m1" and different titles and links. *)
Lemma decision_depends_on_marker_only_run :
  hasNewUpdate {| Entries := [entry "First title" "m1" "https://x.io/1"] |}
               {[ feed1URL := "m0" ]} feed1URL
  = hasNewUpdate {| Entries := [entry "Other title" "m1" "https://x.io/2";
                                entry "Older" "m0" "https://x.io/0"] |}
                 {[ feed1URL := "m0" ]} feed1URL.
Proof.
  refine (proj1 (decision_depends_on_marker_only nat (rt "m1" ok200) config
            feed1URL {[ feed1URL := "m0" ]} _ _ _)).
  right. do 4 eexists. repeat split.
Defined.

(** The first poll of a feed whose first entry has the empty marker. *)
Lemma empty_marker_never_notified_run :
  pollFeed (RT := rt "" ok200) config feed1URL ∅ start
  = (∅, afterGet feed1URL).
Proof.
  refine (proj1 (proj2 (proj2 (empty_marker_never_notified nat (rt "" ok200)
            config feed1URL ∅ start (afterGet feed1URL) (oneEntry "")
            (bigRelease "") [] _ _ _ _)))).
  - apply lookup_empty.
  - vm_compute; reflexivity.
  - reflexivity.
  - reflexivity.
Defined.

End Runs.

(** Two rounds of the main loop against a chat server that answers 500:
    the notification of the first round fails and the second round does not
    send it again. *)
Example failed_delivery_not_retried :
  let run := mainLoop (RT := Scripted.rt "m1" Scripted.err500) 2
               Scripted.config ∅ Scripted.start in
  posts (trace run.2) = [Scripted.bigReleasePost]
  /\ run.1 = {[ Scripted.feed1URL := "m1" ]}.
Proof. split; vm_compute; reflexivity. Qed.

(** ** What a pass and a round do on the network *)

Lemma gets_app (tr1 tr2 : list Event) : gets (tr1 ++ tr2) = gets tr1 ++ gets tr2.
Proof.
  induction tr1 as [| ev tr1 IH]; simpl; [reflexivity |].
  destruct ev; simpl; by rewrite IH.
Qed.

Lemma sleeps_app (tr1 tr2 : list Event) :
  sleeps (tr1 ++ tr2) = sleeps tr1 ++ sleeps tr2.
Proof.
  induction tr1 as [| ev tr1 IH]; simpl; [reflexivity |].
  destruct ev; simpl; by rewrite IH.
Qed.

Lemma readings_of_posts (reqs : list Request) :
  posts (map EvDo reqs) = reqs
  /\ gets (map EvDo reqs) = []
  /\ sleeps (map EvDo reqs) = [].
Proof.
  induction reqs as [| req reqs (IH1 & IH2 & IH3)]; simpl; [done |].
  by rewrite IH1, IH2, IH3.
Qed.

Lemma readings_of_lines (lines : list string) :
  posts (map EvPrintln lines) = []
  /\ gets (map EvPrintln lines) = []
  /\ sleeps (map EvPrintln lines) = [].
Proof.
  induction lines as [| line lines (IH1 & IH2 & IH3)]; simpl; [done |].
  by rewrite IH1, IH2, IH3.
Qed.

Section Passes.
Context {World : Type} `{RT : Runtime World}.
Implicit Types (p : Proc World) (lastUpdates : gmap string string).

Local Ltac no_request :=
  exists []; simpl; rewrite app_nil_r;
  split; [reflexivity | split; [lia | constructor]].

(** The events of a delivery: nothing, or one request to the room. *)
Lemma sendMatrixMessage_events config message p :
  exists reqs,
    trace (sendMatrixMessage (MatrixServer config) (MatrixRoomID config)
             (MatrixToken config) message p).2
    = trace p ++ map EvDo reqs
    /\ (List.length reqs <= 1)%nat
    /\ Forall (toRoom config) reqs.
Proof.
  rewrite sendMatrixMessage_run.
  destruct (json_Marshal _) as [payloadBytes | err]; [| no_request].
  cbv zeta.
  destruct (url_Parse _) as [err |]; [no_request |].
  match goal with
  | |- context [EvDo ?r] => exists [r]
  end.
  split; [| split; [simpl; lia | by repeat constructor]].
  destruct (client_Do _ (world p)) as [[resp | err] w]; simpl; [| reflexivity].
  by case_bool_decide.
Qed.

(** The events of one step: the GET, then at most one request to the room,
    then lines on standard output. *)
Lemma pollFeed_events config feedURL lastUpdates p :
  exists reqs lines,
    trace (pollFeed config feedURL lastUpdates p).2
    = trace p ++ EvGet feedURL :: map EvDo reqs ++ map EvPrintln lines
    /\ (List.length reqs <= 1)%nat
    /\ Forall (toRoom config) reqs.
Proof.
  destruct (fetchFeed feedURL p) as [[feed | err] p1] eqn:Hf.
  - rewrite (pollFeed_guard _ _ _ _ _ _ Hf).
    pose proof (fetchFeed_trace _ _ _ _ Hf) as Ht.
    destruct (hasNewUpdate feed lastUpdates feedURL).
    + destruct (sendMatrixMessage (MatrixServer config) (MatrixRoomID config)
                  (MatrixToken config) (composeMessage (Entries feed !!! 0%nat)) p1)
        as [out p2] eqn:Hs.
      rewrite (notifyUpdate_outcome _ _ _ _ _ _ _ Hs). simpl.
      destruct (sendMatrixMessage_events config
                  (composeMessage (Entries feed !!! 0%nat)) p1)
        as (reqs & Hreqs & Hle & Hto).
      rewrite Hs in Hreqs. simpl in Hreqs.
      exists reqs, [outcomeLine feedURL out].
      split; [| by split].
      rewrite Hreqs, Ht. simpl. by rewrite <- !app_assoc.
    + exists [], []. simpl. split; [exact Ht | split; [lia | constructor]].
  - rewrite (pollFeed_fetch_error _ _ _ _ _ _ Hf). simpl.
    exists [], ["Error fetching feed: " +:+ Error err].
    split; [| split; [simpl; lia | constructor]].
    rewrite (fetchFeed_trace _ _ _ _ Hf). simpl. by rewrite <- app_assoc.
Qed.

Lemma pollFeed_gets config feedURL lastUpdates p :
  gets (trace (pollFeed config feedURL lastUpdates p).2)
  = gets (trace p) ++ [feedURL].
Proof.
  destruct (pollFeed_events config feedURL lastUpdates p)
    as (reqs & lines & -> & _).
  rewrite gets_app. simpl. rewrite gets_app.
  destruct (readings_of_posts reqs) as (_ & -> & _).
  by destruct (readings_of_lines lines) as (_ & -> & _).
Qed.

Lemma pollFeed_sleeps config feedURL lastUpdates p :
  sleeps (trace (pollFeed config feedURL lastUpdates p).2) = sleeps (trace p).
Proof.
  destruct (pollFeed_events config feedURL lastUpdates p)
    as (reqs & lines & -> & _).
  rewrite sleeps_app. simpl. rewrite sleeps_app.
  destruct (readings_of_posts reqs) as (_ & _ & ->).
  destruct (readings_of_lines lines) as (_ & _ & ->).
  by rewrite app_nil_r.
Qed.

Lemma pollFeed_posts config feedURL lastUpdates p :
  exists reqs,
    posts (trace (pollFeed config feedURL lastUpdates p).2)
    = posts (trace p) ++ reqs
    /\ (List.length reqs <= 1)%nat
    /\ Forall (toRoom config) reqs.
Proof.
  destruct (pollFeed_events config feedURL lastUpdates p)
    as (reqs & lines & -> & Hle & Hto).
  exists reqs. split; [| by split].
  rewrite posts_app. simpl. rewrite posts_app.
  destruct (readings_of_posts reqs) as (-> & _).
  destruct (readings_of_lines lines) as (-> & _).
  by rewrite app_nil_r.
Qed.

(** The tracker after a step: the one before, or the one before with the
    entry of the feed set. *)
Lemma pollFeed_tracker config feedURL lastUpdates p :
  (pollFeed config feedURL lastUpdates p).1 = lastUpdates
  \/ exists marker,
       (pollFeed config feedURL lastUpdates p).1
       = <[feedURL := marker]> lastUpdates.
Proof.
  destruct (fetchFeed feedURL p) as [[feed | err] p1] eqn:Hf.
  - rewrite (pollFeed_guard _ _ _ _ _ _ Hf).
    destruct (hasNewUpdate feed lastUpdates feedURL); [| by left].
    right. eexists. apply notifyUpdate_tracker.
  - left. by rewrite (pollFeed_fetch_error _ _ _ _ _ _ Hf).
Qed.

Lemma pollFeeds_cons config feedURL rest lastUpdates p :
  pollFeeds config (feedURL :: rest) lastUpdates p
  = pollFeeds config rest (pollFeed config feedURL lastUpdates p).1
      (pollFeed config feedURL lastUpdates p).2.
Proof.
  simpl. unfold bind.
  by destruct (pollFeed config feedURL lastUpdates p).
Qed.

Lemma pass_gets config feedURLs lastUpdates p :
  gets (trace (pollFeeds config feedURLs lastUpdates p).2)
  = gets (trace p) ++ feedURLs.
Proof.
  revert lastUpdates p.
  induction feedURLs as [| feedURL rest IH]; intros lastUpdates p.
  - simpl. by rewrite app_nil_r.
  - rewrite pollFeeds_cons, IH, pollFeed_gets. by rewrite <- app_assoc.
Qed.

End Passes.

(** X1. A pass fetches every URL of its list exactly once, in the order of
    the list, whatever the fetches and the deliveries return. *)
Theorem pass_fetches_each_feed_once :
  forall (World : Type) (RT : Runtime World) (config : Config)
         (feedURLs : list string) (lastUpdates : gmap string string)
         (p : Proc World),
    gets (trace (pollFeeds config feedURLs lastUpdates p).2)
    = gets (trace p) ++ feedURLs.
Proof.
  intros World RT config feedURLs lastUpdates p. apply pass_gets.
Qed.

(** X2. A pass hands at most one request per listed URL to the transport,
    and each of them is a POST to the chat endpoint of the configuration
    with the content type application/json: the program sends nothing
    anywhere else. *)
Theorem pass_posts_only_to_room :
  forall (World : Type) (RT : Runtime World) (config : Config)
         (feedURLs : list string) (lastUpdates : gmap string string)
         (p : Proc World),
    exists reqs,
      posts (trace (pollFeeds config feedURLs lastUpdates p).2)
      = posts (trace p) ++ reqs
      /\ (List.length reqs <= List.length feedURLs)%nat
      /\ Forall (toRoom config) reqs.
Proof.
  intros World RT config feedURLs.
  induction feedURLs as [| feedURL rest IH]; intros lastUpdates p.
  - exists []. simpl. split; [by rewrite app_nil_r | split; [lia | constructor]].
  - rewrite pollFeeds_cons.
    destruct (pollFeed_posts config feedURL lastUpdates p)
      as (reqs1 & H1 & Hle1 & Hto1).
    destruct (IH (pollFeed config feedURL lastUpdates p).1
                 (pollFeed config feedURL lastUpdates p).2)
      as (reqs2 & H2 & Hle2 & Hto2).
    exists (reqs1 ++ reqs2).
    split; [by rewrite H2, H1, <- app_assoc |].
    split; [rewrite length_app; simpl; lia | by apply Forall_app].
Qed.

(** X3. A pass never drops an entry of the tracker, and every entry it adds
    is keyed by a URL of its list. *)
Theorem pass_tracker_keys :
  forall (World : Type) (RT : Runtime World) (config : Config)
         (feedURLs : list string) (lastUpdates : gmap string string)
         (p : Proc World),
    dom lastUpdates ⊆ dom (pollFeeds config feedURLs lastUpdates p).1
    /\ dom (pollFeeds config feedURLs lastUpdates p).1
       ⊆ dom lastUpdates ∪ list_to_set feedURLs.
Proof.
  intros World RT config feedURLs.
  induction feedURLs as [| feedURL rest IH]; intros lastUpdates p.
  - simpl. split; [reflexivity | apply union_subseteq_l].
  - rewrite pollFeeds_cons.
    destruct (IH (pollFeed config feedURL lastUpdates p).1
                 (pollFeed config feedURL lastUpdates p).2) as [IH1 IH2].
    destruct (pollFeed_tracker config feedURL lastUpdates p) as [E | [m E]];
      rewrite E in IH1, IH2 |- *; simpl.
    + split; [exact IH1 |].
      intros x Hx. apply IH2 in Hx.
      rewrite !elem_of_union in Hx. rewrite !elem_of_union. tauto.
    + rewrite dom_insert in IH1, IH2. split.
      * intros x Hx. apply IH1. by apply elem_of_union_r.
      * intros x Hx. apply IH2 in Hx.
        rewrite !elem_of_union in Hx. rewrite !elem_of_union. tauto.
Qed.

(** X4. A pass leaves the tracker entry of every URL outside its list as it
    was, present or absent. *)
Theorem pass_leaves_other_feeds :
  forall (World : Type) (RT : Runtime World) (config : Config)
         (feedURLs : list string) (lastUpdates : gmap string string)
         (p : Proc World) (url : string),
    url ∉ feedURLs ->
    (pollFeeds config feedURLs lastUpdates p).1 !! url = lastUpdates !! url.
Proof.
  intros World RT config feedURLs.
  induction feedURLs as [| feedURL rest IH]; intros lastUpdates p url Hnot.
  - reflexivity.
  - rewrite pollFeeds_cons.
    apply not_elem_of_cons in Hnot as [Hne Hrest].
    rewrite IH by exact Hrest.
    destruct (pollFeed_tracker config feedURL lastUpdates p) as [E | [m E]];
      rewrite E; [reflexivity | by apply lookup_insert_ne].
Qed.

(** X5. After a step whose fetch returned at least one entry, the tracker
    read at the feed URL gives the marker of the first entry, whether the
    step notified or skipped and whatever the delivery returned. *)
Theorem step_syncs_tracker :
  forall (World : Type) (RT : Runtime World) (config : Config)
         (feedURL : string) (lastUpdates : gmap string string)
         (p p1 : Proc World) (feed : Feed) (e0 : Entry) (rest : list Entry),
    fetchFeed feedURL p = (Ok feed, p1) ->
    Entries feed = e0 :: rest ->
    mapIndex (pollFeed config feedURL lastUpdates p).1 feedURL = Updated e0.
Proof.
  intros World RT config feedURL lastUpdates p p1 feed e0 rest Hf He.
  rewrite (pollFeed_guard _ _ _ _ _ _ Hf).
  destruct (hasNewUpdate feed lastUpdates feedURL) eqn:Hg.
  - rewrite notifyUpdate_tracker, mapIndex_insert_eq. by rewrite He.
  - rewrite (hasNewUpdate_first _ e0 rest) in Hg by exact He.
    symmetry. by apply isNewUpdate_false.
Qed.

(** *** Sleeping *)

Lemma wrap64_small (z : Z) : - 2 ^ 63 <= z < 2 ^ 63 -> wrap64 z = z.
Proof. intros H. unfold wrap64. rewrite Z.mod_small; lia. Qed.

Lemma wrap64_high (z : Z) : 2 ^ 63 <= z < 2 ^ 64 -> wrap64 z = z - 2 ^ 64.
Proof.
  intros H. unfold wrap64.
  replace (z + 2 ^ 63) with (z - 2 ^ 63 + 1 * 2 ^ 64) by lia.
  rewrite Z_mod_plus_full, Z.mod_small; lia.
Qed.

Section Rounds.
Context {World : Type} `{RT : Runtime World}.
Implicit Types (p : Proc World) (lastUpdates : gmap string string).

Lemma pollFeeds_sleeps config feedURLs lastUpdates p :
  sleeps (trace (pollFeeds config feedURLs lastUpdates p).2) = sleeps (trace p).
Proof.
  revert lastUpdates p.
  induction feedURLs as [| feedURL rest IH]; intros lastUpdates p.
  - reflexivity.
  - by rewrite pollFeeds_cons, IH, pollFeed_sleeps.
Qed.

Lemma cycle_run config lastUpdates p :
  cycle config lastUpdates p
  = ((pollFeeds config (FeedURLs config) lastUpdates p).1,
     {| world := world (pollFeeds config (FeedURLs config) lastUpdates p).2;
        trace := trace (pollFeeds config (FeedURLs config) lastUpdates p).2
                 ++ [EvSleep (wrap64 (CheckInterval config * time_Minute))] |}).
Proof.
  unfold cycle, bind.
  by destruct (pollFeeds config (FeedURLs config) lastUpdates p).
Qed.


End Rounds.

(** X6. When the configured interval is between -153722867 and 153722867
    minutes, a round ends with exactly one sleep, of that many minutes in
    nanoseconds: the multiplication by [time.Minute] does not overflow. *)
Theorem round_sleeps_configured_minutes :
  forall (World : Type) (RT : Runtime World) (config : Config)
         (lastUpdates : gmap string string) (p : Proc World),
    -153722867 <= CheckInterval config <= 153722867 ->
    sleeps (trace (cycle config lastUpdates p).2)
    = sleeps (trace p) ++ [CheckInterval config * 60000000000]
    /\ last (trace (cycle config lastUpdates p).2)
       = Some (EvSleep (CheckInterval config * 60000000000)).
Proof.
  intros World RT config lastUpdates p Hc.
  rewrite cycle_run. simpl.
  assert (E : wrap64 (CheckInterval config * time_Minute)
              = CheckInterval config * 60000000000).
  { apply wrap64_small. unfold time_Minute. lia. }
  rewrite E. split.
  - rewrite sleeps_app, pollFeeds_sleeps. reflexivity.
  - apply last_snoc.
Qed.

(** X7. When the configured interval is between 153722868 and 307445734
    minutes, the multiplication by [time.Minute] overflows [int64]: the
    duration handed to [time.Sleep] is the product minus 2^64, a negative
    number. *)
Theorem round_sleep_overflows :
  forall (World : Type) (RT : Runtime World) (config : Config)
         (lastUpdates : gmap string string) (p : Proc World),
    153722868 <= CheckInterval config <= 307445734 ->
    exists d,
      sleeps (trace (cycle config lastUpdates p).2) = sleeps (trace p) ++ [d]
      /\ d = CheckInterval config * 60000000000 - 2 ^ 64
      /\ d < 0.
Proof.
  intros World RT config lastUpdates p Hc.
  exists (CheckInterval config * 60000000000 - 2 ^ 64).
  split; [| split; [reflexivity | lia]].
  rewrite cycle_run. simpl.
  rewrite sleeps_app, pollFeeds_sleeps. simpl.
  rewrite wrap64_high by (unfold time_Minute; lia).
  reflexivity.
Qed.


(** *** Deliveries that fail *)

(** X9. When the transport fails or answers with another status than 200,
    the step has sent its one request, prints "Error sending Matrix
    message:" followed by the transport's error or by "failed to send
    message:" and the status text, and returns the tracker with the new
    marker. *)
Theorem rejected_delivery_is_reported :
  forall (World : Type) (RT : Runtime World) (config : Config)
         (feedURL : string) (lastUpdates : gmap string string)
         (p p1 : Proc World) (feed : Feed) (payloadBytes : string)
         (r : Result Response) (w : World),
    let message := composeMessage (Entries feed !!! 0%nat) in
    let req := {| Method := "POST"; URL := roomEndpoint config;
                  Header := {[ "Content-Type" := ["application/json"] ]};
                  Body := payloadBytes |} in
    fetchFeed feedURL p = (Ok feed, p1) ->
    hasNewUpdate feed lastUpdates feedURL = true ->
    json_Marshal (matrixPayload message (markdown_ToHTML message))
    = Ok payloadBytes ->
    url_Parse (roomEndpoint config) = None ->
    client_Do req (world p1) = (r, w) ->
    (forall resp, r = Ok resp -> StatusCode resp <> 200) ->
    pollFeed config feedURL lastUpdates p
    = (<[feedURL := Updated (Entries feed !!! 0%nat)]> lastUpdates,
       {| world := w;
          trace := trace p1
                   ++ [EvDo req;
                       EvPrintln
                         ("Error sending Matrix message: "
                          +:+ match r with
                              | Err err => Error err
                              | Ok resp =>
                                  "failed to send message: " +:+ Status resp
                              end)] |}).
Proof.
  intros World RT config feedURL lastUpdates p p1 feed payloadBytes r w
         message req Hf Hg Hj Hu Hdo Hbad.
  destruct (sendMatrixMessage (MatrixServer config) (MatrixRoomID config)
              (MatrixToken config) message p1) as [out p2] eqn:Hs.
  rewrite (pollFeed_notify _ _ _ _ _ _ _ _ Hf Hg Hs).
  rewrite sendMatrixMessage_run in Hs. fold message in Hs.
  rewrite Hj in Hs. cbv zeta in Hs.
  fold (roomEndpoint config) in Hs. rewrite Hu in Hs.
  fold req in Hs. rewrite Hdo in Hs. simpl in Hs.
  destruct r as [resp | err].
  - rewrite bool_decide_eq_false_2 in Hs by by apply Hbad.
    injection Hs as <- <-. simpl. by rewrite <- app_assoc.
  - injection Hs as <- <-. simpl. by rewrite <- app_assoc.
Qed.

(** X10. When the request cannot be built, because the payload does not
    encode or the endpoint URL does not parse, the step sends nothing and
    prints the error, and still returns the tracker with the new marker:
    the update is not announced and will not be judged new again. *)
Theorem unbuildable_request_drops_update :
  forall (World : Type) (RT : Runtime World) (config : Config)
         (feedURL : string) (lastUpdates : gmap string string)
         (p p1 : Proc World) (feed : Feed) (err : error),
    let message := composeMessage (Entries feed !!! 0%nat) in
    let payload := matrixPayload message (markdown_ToHTML message) in
    fetchFeed feedURL p = (Ok feed, p1) ->
    hasNewUpdate feed lastUpdates feedURL = true ->
    (json_Marshal payload = Err err
     \/ exists payloadBytes, json_Marshal payload = Ok payloadBytes
                             /\ url_Parse (roomEndpoint config) = Some err) ->
    pollFeed config feedURL lastUpdates p
    = (<[feedURL := Updated (Entries feed !!! 0%nat)]> lastUpdates,
       {| world := world p1;
          trace := trace p1
                   ++ [EvPrintln ("Error sending Matrix message: "
                                  +:+ Error err)] |})
    /\ isNewUpdate (pollFeed config feedURL lastUpdates p).1 feedURL
         (Updated (Entries feed !!! 0%nat)) = false.
Proof.
  intros World RT config feedURL lastUpdates p p1 feed err message payload
         Hf Hg Hbuild.
  assert (Hs : sendMatrixMessage (MatrixServer config) (MatrixRoomID config)
                 (MatrixToken config) message p1 = (Some err, p1)).
  { rewrite sendMatrixMessage_run. fold message payload.
    destruct Hbuild as [-> | (payloadBytes & -> & Hu)]; [reflexivity |].
    cbv zeta. fold (roomEndpoint config). by rewrite Hu. }
  rewrite (pollFeed_notify _ _ _ _ _ _ _ _ Hf Hg Hs).
  split; [reflexivity |].
  apply isNewUpdate_false. simpl. by rewrite mapIndex_insert_eq.
Qed.

(** ** Start-up *)

Lemma isDefaultConfig_eq (config other : Config) :
  isDefaultConfig config other = true <-> config = other.
Proof.
  destruct config, other. unfold isDefaultConfig. simpl.
  rewrite !andb_true_iff, bool_decide_eq_true, !String.eqb_eq, Z.eqb_eq.
  split.
  - by intros ((((-> & ->) & ->) & ->) & ->).
  - by intros [= -> -> -> -> ->].
Qed.

Section StartupSteps.
Context {World : Type} `{RT : Runtime World} `{FS : FileSystem World}.
Implicit Types (p : Proc World).

Lemma loadConfig_run path p :
  loadConfig path p
  = (match (os_ReadFile path (world p)).1 with
     | Err err => (zeroConfig, Some err)
     | Ok file => json_Unmarshal file zeroConfig
     end,
     {| world := (os_ReadFile path (world p)).2; trace := trace p |}).
Proof.
  unfold loadConfig, bind, sys, ret.
  by destruct (os_ReadFile path (world p)) as [[file | err] w].
Qed.

(** [createDefaultConfig] prints nothing. *)
Lemma createDefaultConfig_trace path p :
  trace (createDefaultConfig path p).2 = trace p.
Proof.
  unfold createDefaultConfig, bind, sys, ret.
  destruct (os_MkdirAll _ _ (world p)) as [[err |] w]; simpl; [reflexivity |].
  destruct (json_MarshalIndent _ _ _) as [configData | err]; simpl;
    [| reflexivity].
  by destruct (os_WriteFile _ _ _ w).
Qed.

(** The start-up only prints, and its one exit status is 1. *)
Lemma startup_trace p :
  exists lines, trace (startup p).2 = trace p ++ map EvPrintln lines.
Proof.
  unfold startup, bind. rewrite loadConfig_run.
  set (r := match (os_ReadFile configPath (world p)).1 with
            | Err err => (zeroConfig, Some err)
            | Ok file => json_Unmarshal file zeroConfig
            end).
  destruct r as [config [err |]]; simpl.
  - match goal with
    | |- context [createDefaultConfig configPath ?q] =>
        pose proof (createDefaultConfig_trace configPath q) as Hc;
        destruct (createDefaultConfig configPath q) as [[e |] p2]
    end; simpl in *; rewrite Hc.
    + eexists [_; _]. simpl. by rewrite <- app_assoc.
    + eexists [_; _]. simpl. by rewrite <- app_assoc.
  - destruct (isDefaultConfig config defaultConfig); simpl.
    + by eexists [_].
    + exists []. simpl. by rewrite app_nil_r.
Qed.

Lemma startup_exit_status p code : (startup p).1 = Exit code -> code = 1.
Proof.
  unfold startup, bind. rewrite loadConfig_run.
  set (r := match (os_ReadFile configPath (world p)).1 with
            | Err err => (zeroConfig, Some err)
            | Ok file => json_Unmarshal file zeroConfig
            end).
  destruct r as [config [err |]]; simpl.
  - match goal with
    | |- context [createDefaultConfig configPath ?q] =>
        destruct (createDefaultConfig configPath q) as [[e |] p2]
    end; simpl; by intros [= <-].
  - destruct (isDefaultConfig config defaultConfig); simpl; [| discriminate].
    by intros [= <-].
Qed.

Lemma main_run n p :
  main n p
  = match (startup p).1 with
    | Exit code => (Some code, (startup p).2)
    | Run config => (None, (mainLoop n config ∅ (startup p).2).2)
    end.
Proof.
  unfold main, bind. destruct (startup p) as [[code | config] p1]; simpl.
  - reflexivity.
  - by destruct (mainLoop n config ∅ p1).
Qed.

End StartupSteps.

(** X11. The check of [main] against the default configuration holds
    exactly when the loaded configuration agrees with the default one in
    all five fields: changing any single field is enough for the program to
    start. *)
Theorem isDefaultConfig_iff :
  forall (config : Config),
    isDefaultConfig config defaultConfig = true <-> config = defaultConfig.
Proof.
  intros config. apply isDefaultConfig_eq.
Qed.

(** X12. A configuration file that is missing, or that can be read but
    does not decode, is replaced: once the directory is made and the default
    configuration encoded, the default is written to the path, over the
    file if there is one, and the process exits with status 1 after two
    lines, the second telling whether the write succeeded. *)
Theorem unloadable_config_is_replaced :
  forall (World : Type) (FS : FileSystem World)
         (p : Proc World) (configData : string) (err : error)
         (w1 w2 w3 : World) (e : option error),
    (os_ReadFile configPath (world p) = (Err err, w1)
     \/ exists data partial,
          os_ReadFile configPath (world p) = (Ok data, w1)
          /\ json_Unmarshal data zeroConfig = (partial, Some err)) ->
    os_MkdirAll (filepath_Dir configPath) mode_0755 w1 = (None, w2) ->
    json_MarshalIndent defaultConfig "" "  " = Ok configData ->
    os_WriteFile configPath configData mode_0644 w2 = (e, w3) ->
    startup p
    = (Exit 1,
       {| world := w3;
          trace := trace p
                   ++ [EvPrintln configNotFoundLine;
                       EvPrintln
                         match e with
                         | Some err' =>
                             "Error creating default config: " +:+ Error err'
                         | None => configCreatedLine
                         end] |}).
Proof.
  intros World FS p configData err w1 w2 w3 e Hload Hmk Henc Hwr.
  unfold startup, bind. rewrite loadConfig_run.
  destruct Hload as [Hread | (data & partial & Hread & Hdec)];
    rewrite Hread; simpl; [| rewrite Hdec; simpl].
  all: unfold createDefaultConfig, bind, sys; simpl.
  all: rewrite Hmk, Henc; simpl; rewrite Hwr.
  all: destruct e; simpl; by rewrite <- app_assoc.
Qed.

(** X16. When the configuration does not load and the directory cannot be
    made, nothing is written: the world is left as [os.MkdirAll] left it,
    the error is printed and the process exits with status 1. *)
Theorem failed_mkdir_writes_nothing :
  forall (World : Type) (FS : FileSystem World)
         (p p1 : Proc World) (partial : Config) (err err' : error)
         (w2 : World),
    loadConfig configPath p = ((partial, Some err), p1) ->
    os_MkdirAll (filepath_Dir configPath) mode_0755 (world p1)
    = (Some err', w2) ->
    startup p
    = (Exit 1,
       {| world := w2;
          trace := trace p
                   ++ [EvPrintln configNotFoundLine;
                       EvPrintln ("Error creating default config: "
                                  +:+ Error err')] |}).
Proof.
  intros World FS p p1 partial err err' w2 Hload Hmk.
  assert (Ht : trace p1 = trace p).
  { rewrite loadConfig_run in Hload. by injection Hload as _ <-. }
  unfold startup, bind. rewrite Hload. simpl.
  unfold createDefaultConfig, bind, sys. simpl.
  rewrite Hmk. simpl. by rewrite Ht, <- app_assoc.
Qed.

(** X13. A configuration file that is read and decoded is never written:
    the start-up leaves the world as the read left it. The process goes on
    to poll, silently, exactly when the configuration differs from the
    default one; otherwise it prints one line and exits with status 1. *)
Theorem loadable_config_is_kept :
  forall (World : Type) (FS : FileSystem World)
         (p : Proc World) (data : string) (config : Config) (w1 : World),
    os_ReadFile configPath (world p) = (Ok data, w1) ->
    json_Unmarshal data zeroConfig = (config, None) ->
    world (startup p).2 = w1
    /\ ((startup p).1 = Run config <-> config <> defaultConfig)
    /\ (config <> defaultConfig ->
        startup p = (Run config, {| world := w1; trace := trace p |}))
    /\ (config = defaultConfig ->
        startup p
        = (Exit 1, {| world := w1;
                      trace := trace p ++ [EvPrintln defaultDetectedLine] |})).
Proof.
  intros World FS p data config w1 Hread Hdec.
  unfold startup, bind. rewrite loadConfig_run, Hread. simpl.
  rewrite Hdec. simpl.
  destruct (isDefaultConfig config defaultConfig) eqn:Hd; simpl.
  - apply isDefaultConfig_eq in Hd.
    split; [reflexivity |]. split; [| split].
    + split; [discriminate | by intros H].
    + by intros H.
    + reflexivity.
  - assert (Hne : config <> defaultConfig).
    { intros H. apply isDefaultConfig_eq in H. congruence. }
    split; [reflexivity |]. split; [| split].
    + by split.
    + reflexivity.
    + by intros H.
Qed.

(** X14. Whenever [main] exits, the exit status is 1 and the process has
    made no network request and has not slept: no GET, no POST. *)
Theorem main_exits_without_polling :
  forall (World : Type) (RT : Runtime World) (FS : FileSystem World)
         (n : nat) (p : Proc World) (code : Z),
    (main n p).1 = Some code ->
    code = 1
    /\ gets (trace (main n p).2) = gets (trace p)
    /\ posts (trace (main n p).2) = posts (trace p)
    /\ sleeps (trace (main n p).2) = sleeps (trace p).
Proof.
  intros World RT FS n p code. rewrite main_run.
  destruct (startup p).1 as [code' | config] eqn:Hs; simpl; [| discriminate].
  intros [= ->]. split; [by apply (startup_exit_status p) |].
  destruct (startup_trace p) as [lines ->].
  rewrite gets_app, posts_app, sleeps_app.
  destruct (readings_of_lines lines) as (-> & -> & ->).
  by rewrite !app_nil_r.
Qed.

(** X15. With a configuration that loads and differs from the default one,
    [main] runs the polling loop with that configuration from the empty
    tracker, in the state the read of the file left: nothing of an earlier
    run of the program is remembered. *)
Theorem main_polls_from_empty_tracker :
  forall (World : Type) (RT : Runtime World) (FS : FileSystem World)
         (n : nat) (p : Proc World) (data : string) (config : Config)
         (w1 : World),
    os_ReadFile configPath (world p) = (Ok data, w1) ->
    json_Unmarshal data zeroConfig = (config, None) ->
    config <> defaultConfig ->
    main n p
    = (None, (mainLoop n config ∅ {| world := w1; trace := trace p |}).2).
Proof.
  intros World RT FS n p data config w1 Hread Hdec Hne.
  rewrite main_run.
  assert (Hs : startup p = (Run config, {| world := w1; trace := trace p |})).
  { unfold startup, bind. rewrite loadConfig_run, Hread. simpl.
    rewrite Hdec. simpl.
    destruct (isDefaultConfig config defaultConfig) eqn:Hd; [| reflexivity].
    apply isDefaultConfig_eq in Hd. contradiction. }
  by rewrite Hs.
Qed.

(** ** The further theorems at work on the scripted runtime *)

Section MoreRuns.
Import Scripted ScriptedFiles.

(** A pass over feed1 alone keeps the entry recorded for feed2. *)
Lemma pass_leaves_other_feeds_run :
  (pollFeeds (RT := rt "m1" ok200) config [feed1URL] {[ feed2URL := "old" ]}
             start).1 !! feed2URL
  = ({[ feed2URL := "old" ]} : gmap string string) !! feed2URL.
Proof.
  refine (pass_leaves_other_feeds nat (rt "m1" ok200) config [feed1URL]
            {[ feed2URL := "old" ]} start feed2URL _).
  intros H. apply list_elem_of_singleton in H. discriminate H.
Defined.

(** After a failed delivery of "m1" the tracker reads "m1" for feed1. *)
Lemma step_syncs_tracker_run :
  mapIndex (pollFeed (RT := rt "m1" err500) config feed1URL ∅ start).1 feed1URL
  = "m1".
Proof.
  refine (step_syncs_tracker nat (rt "m1" err500) config feed1URL ∅ start
            (afterGet feed1URL) (oneEntry "m1") (bigRelease "m1") [] _ _);
    vm_compute; reflexivity.
Defined.

(** An interval of 30 minutes. *)
Lemma round_sleeps_configured_minutes_run :
  sleeps (trace (cycle (RT := rt "m1" ok200) config ∅ start).2)
  = sleeps (trace start) ++ [30 * 60000000000].
Proof.
  refine (proj1 (round_sleeps_configured_minutes nat (rt "m1" ok200) config
                   ∅ start _)).
  vm_compute. split; discriminate.
Defined.

(** An interval of 153722868 minutes. *)
Lemma round_sleep_overflows_run :
  exists d,
    sleeps (trace (cycle (RT := rt "m1" ok200) (every 153722868) ∅ start).2)
    = sleeps (trace start) ++ [d]
    /\ d = 153722868 * 60000000000 - 2 ^ 64
    /\ d < 0.
Proof.
  refine (round_sleep_overflows nat (rt "m1" ok200) (every 153722868) ∅
            start _).
  vm_compute. split; discriminate.
Defined.

(** A chat server that answers 500. *)
Lemma rejected_delivery_is_reported_run :
  pollFeed (RT := rt "m1" err500) config feed1URL ∅ start
  = (<[feed1URL := "m1"]> ∅,
     {| world := 2%nat;
        trace := trace (afterGet feed1URL)
                 ++ [EvDo bigReleasePost;
                     EvPrintln "Error sending Matrix message: failed to send message: 500 Internal Server Error"] |}).
Proof.
  refine (rejected_delivery_is_reported nat (rt "m1" err500) config feed1URL
            ∅ start (afterGet feed1URL) (oneEntry "m1")
            "m.text|IT-News: [Big Release](https://x.io/a)" (Ok err500) 2%nat
            _ _ _ _ _ _); try (vm_compute; reflexivity).
  intros resp [= <-]. discriminate.
Defined.

(** An endpoint URL that does not parse. *)
Lemma unbuildable_request_drops_update_run :
  pollFeed (RT := noEndpoint "m1") config feed1URL ∅ start
  = (<[feed1URL := "m1"]> ∅,
     {| world := 1%nat;
        trace := trace (afterGet feed1URL)
                 ++ [EvPrintln "Error sending Matrix message: invalid URL escape"] |}).
Proof.
  refine (proj1 (unbuildable_request_drops_update nat (noEndpoint "m1") config
                   feed1URL ∅ start (afterGet feed1URL) (oneEntry "m1")
                   (errorString "invalid URL escape") _ _ _));
    try (vm_compute; reflexivity).
  right. eexists. split; vm_compute; reflexivity.
Defined.

(** A configuration file with a syntax error. *)
Lemma unloadable_config_is_replaced_run :
  startup (FS := files (Some "{feed_urls") false) start
  = (Exit 1,
     {| world := 3%nat;
        trace := [EvPrintln configNotFoundLine; EvPrintln configCreatedLine] |}).
Proof.
  refine (unloadable_config_is_replaced nat
            (files (Some "{feed_urls") false) start "default"
            (errorString "invalid character") 1%nat 2%nat 3%nat None
            _ _ _ _); try (vm_compute; reflexivity).
  right. do 2 eexists. split; vm_compute; reflexivity.
Defined.

(** No configuration file, and a file system that cannot be written. *)
Lemma failed_mkdir_writes_nothing_run :
  startup (FS := files None true) start
  = (Exit 1,
     {| world := 2%nat;
        trace := [EvPrintln configNotFoundLine;
                  EvPrintln "Error creating default config: read-only file system"] |}).
Proof.
  refine (failed_mkdir_writes_nothing nat (files None true)
            start afterRead zeroConfig
            (errorString "no such file or directory")
            (errorString "read-only file system") 2%nat _ _);
    vm_compute; reflexivity.
Defined.

(** A configuration file of the user's. *)
Lemma loadable_config_is_kept_run :
  world (startup (FS := files (Some "mine") false)
           start).2 = 1%nat
  /\ ((startup (FS := files (Some "mine") false)
         start).1 = Run config
      <-> config <> defaultConfig).
Proof.
  pose proof (loadable_config_is_kept nat
                (files (Some "mine") false) start "mine" config 1%nat
                eq_refl eq_refl) as (H1 & H2 & _).
  exact (conj H1 H2).
Defined.

(** No configuration file: the default is created and the process exits. *)
Lemma main_exits_without_polling_run :
  1 = 1
  /\ gets (trace (main (RT := rt "m1" ok200) (FS := files None false) 3
                       start).2) = gets (trace start)
  /\ posts (trace (main (RT := rt "m1" ok200) (FS := files None false) 3
                        start).2) = posts (trace start)
  /\ sleeps (trace (main (RT := rt "m1" ok200) (FS := files None false) 3
                         start).2) = sleeps (trace start).
Proof.
  refine (main_exits_without_polling nat (rt "m1" ok200) (files None false)
            3%nat start 1 _).
  vm_compute; reflexivity.
Defined.

(** A configuration file of the user's: the loop starts. *)
Lemma main_polls_from_empty_tracker_run :
  main (RT := rt "m1" ok200) (FS := files (Some "mine") false) 2 start
  = (None, (mainLoop (RT := rt "m1" ok200) 2 config ∅ afterRead).2).
Proof.
  refine (main_polls_from_empty_tracker nat (rt "m1" ok200)
            (files (Some "mine") false) 2%nat start "mine" config 1%nat
            eq_refl eq_refl _).
  discriminate.
Defined.

End MoreRuns.
